(** * memscope-rs: the dashboard web server ([start_web_dashboard.py])

    A shallow embedding of the server script: the request-path aliases of
    [DashboardHandler.do_GET], the headers added by [end_headers], the
    console classification of [log_message], the landing page written by
    [create_dashboard_index], the port probe [find_available_port] and the
    start-up and shutdown sequence of [start_server].

    Python [str] values are modelled as [string], the UTF-8 bytes of the
    text.  Every string operation the script uses (equality, [in],
    [endswith], concatenation) with the ASCII needles it uses gives the same
    answer on code points and on UTF-8 bytes.  Integers are [Z]. *)

From stdpp Require Import gmap strings list pretty.
From Stdlib Require Import ZArith Lia.

Local Open Scope Z_scope.

(** ** Python string operations *)

Module PyStr.

(** The characters a string literal of this file cannot hold directly. *)
Definition dq : string := String (Ascii.ascii_of_nat 34) EmptyString.
Definition nl : string := String (Ascii.ascii_of_nat 10) EmptyString.

(** [s.startswith(pre)] *)
Fixpoint startswith (s pre : string) {struct pre} : bool :=
  match pre, s with
  | EmptyString, _ => true
  | String a pre', String b s' => bool_decide (a = b) && startswith s' pre'
  | String _ _, EmptyString => false
  end.

(** [sub in s] *)
Fixpoint contains (sub s : string) : bool :=
  startswith s sub ||
  match s with
  | EmptyString => false
  | String _ s' => contains sub s'
  end.

(** [s.endswith(suf)] *)
Fixpoint endswith (s suf : string) : bool :=
  bool_decide (s = suf) ||
  match s with
  | EmptyString => false
  | String _ s' => endswith s' suf
  end.

(** [s.endswith((suf1, suf2, ...))]: some member of the tuple is a suffix. *)
Definition endswith_any (s : string) (sufs : list string) : bool :=
  existsb (endswith s) sufs.

(** ["sep".join(parts)] *)
Definition join (sep : string) (parts : list string) : string :=
  String.concat sep parts.

End PyStr.

Import PyStr.

(** ** The world the script runs in *)

(** A path of the file system names a regular file (with its bytes) or a
    directory; a path that is not a key does not exist. *)
Inductive node : Type :=
| File (content : string)
| Dir.

Definition header : Type := string * string.

(** What the script does to its surroundings, in program order. *)
Inductive event : Type :=
| EvPrint (text : string)            (* one [print(text)] call *)
| EvExists (path : string)           (* [os.path.exists] / [Path.exists] *)
| EvStat (path : string)             (* [Path.stat] *)
| EvWrite (path : string)            (* [open(path, "w")] and [write] *)
| EvSocket                           (* [socket.socket(AF_INET, SOCK_STREAM)] *)
| EvBind (port : Z)                  (* [s.bind(('localhost', port))] *)
| EvClose                            (* leaving the [with socket] block *)
| EvListen (port : Z)                (* [socketserver.TCPServer(("", port), ...)] *)
| EvThread (url : string)            (* the daemon browser thread is started *)
| EvResponse (status : Z) (headers : list header) (body : string)
| EvServerClose.                     (* leaving the [with TCPServer] block *)

Record world : Type := World {
  fs : gmap string node;
  trace : list event
}.

(** Python exceptions the script raises, catches or lets through. *)
Inductive exn : Type :=
| SystemExit (code : Z)
| RuntimeError (msg : string)
| OSError (msg : string)
| OverflowError (msg : string)
| KeyboardInterrupt.

(** A call returns, raises, or stays blocked in [serve_forever] waiting for a
    connection that never comes. *)
Inductive outcome (A : Type) : Type :=
| Ret (a : A)
| Raise (e : exn)
| Blocked.
Arguments Ret {A} a.
Arguments Raise {A} e.
Arguments Blocked {A}.

(** *** A state and exception monad over the world *)

Definition M (A : Type) : Type := world -> outcome A * world.

Definition ret {A : Type} (a : A) : M A := fun w => (Ret a, w).

Definition bind {A B : Type} (m : M A) (k : A -> M B) : M B :=
  fun w =>
    match m w with
    | (Ret a, w') => k a w'
    | (Raise e, w') => (Raise e, w')
    | (Blocked, w') => (Blocked, w')
    end.

Definition raise {A : Type} (e : exn) : M A := fun w => (Raise e, w).

Definition blocked {A : Type} : M A := fun w => (Blocked, w).

Notation "'let*' x ':=' m 'in' k" := (bind m (fun x => k))
  (at level 10, x name, m at level 100, k at level 200).
Notation "m >> k" := (bind m (fun _ => k))
  (at level 60, right associativity).

(** [try: m except ...: h e]; [h e = None] when no [except] clause matches
    [e], which then propagates. *)
Definition try_except {A : Type} (m : M A) (h : exn -> option (M A)) : M A :=
  fun w =>
    match m w with
    | (Raise e, w') =>
        match h e with
        | Some k => k w'
        | None => (Raise e, w')
        end
    | r => r
    end.

(** [with ... :] body, whose exit action runs however the body ends. *)
Definition with_exit {A : Type} (body : M A) (exit : event) : M A :=
  fun w =>
    let '(o, w') := body w in
    match o with
    | Blocked => (Blocked, w')
    | _ => (o, World (fs w') (trace w' ++ [exit]))
    end.

Definition emit (e : event) : M unit :=
  fun w => (Ret tt, World (fs w) (trace w ++ [e])).

Definition get_fs : M (gmap string node) := fun w => (Ret (fs w), w).

Definition print (text : string) : M unit := emit (EvPrint text).

(** [os.path.exists(path)] and [Path(path).exists()] *)
Definition os_path_exists (path : string) : M bool :=
  emit (EvExists path) >>
  let* files := get_fs in
  ret (bool_decide (is_Some (files !! path))).

(** [sys.exit(code)] *)
Definition sys_exit {A : Type} (code : Z) : M A := raise (SystemExit code).

(** [for x in xs: f x] *)
Fixpoint for_each {A : Type} (f : A -> M unit) (xs : list A) : M unit :=
  match xs with
  | [] => ret tt
  | x :: xs' => f x >> for_each f xs'
  end.

(** *** What the script does not decide

    The operating system, the clock, Python's builtins and the [http.server]
    base class are not part of the script; the model takes them as one
    record, and the theorems hold for every such record. *)

(** A GET request as the base class has parsed it ([parse_request]): the
    request line as received, the version it names (["HTTP/0.9"] when the
    request line has only two words), the path, and the header lines. *)
Record request : Type := Request {
  requestline : string;
  request_version : string;
  request_path : string;
  request_headers : list header
}.

(** What [SimpleHTTPRequestHandler.do_GET] does for a request: the
    [log_message] calls it makes, the status it sends, the headers it has
    buffered when it calls [end_headers], and the body. *)
Record base_reply : Type := BaseReply {
  reply_logs : list (string * list string);
  reply_status : Z;
  reply_headers : list header;
  reply_body : string
}.

Record env : Type := Env {
  (** [bind(('localhost', p))] finds the valid port [p] free *)
  port_free : Z -> bool;
  (** [TCPServer(("", p), ...)] can bind and listen on [p] *)
  listen_ok : Z -> bool;
  (** [str(e)] of the exception a failed [TCPServer] raises *)
  listen_error : Z -> string;
  (** [time.strftime('%H:%M:%S')] after so many events *)
  strftime_HMS : nat -> string;
  (** [format % args] *)
  percent : string -> list string -> string;
  (** [f"{n / 1024:.1f}"] *)
  fmt_kb : Z -> string;
  (** [os.path.abspath] *)
  abspath : string -> string;
  (** [st_size] of a directory, [st_mtime] of a path *)
  dir_size : Z;
  stat_mtime : string -> Z;
  (** the base class's [do_GET] for a request, with [self.path] as it has
      been rewritten, over the files and at the clock reading of the moment *)
  base_do_GET : request -> string -> gmap string node -> nat -> base_reply
}.

(** ** [DashboardHandler] *)

Section Handler.

Variable E : env.

(** *** [end_headers] *)

(** [self.send_header(k, v)] of the base class: it appends to the header
    buffer [if self.request_version != 'HTTP/0.9'], and does nothing for an
    HTTP/0.9 request, whose reply has no header; the base class's
    [end_headers] then flushes the buffer as it is. *)
Definition send_header (request_version : string) (buf : list header) (k v : string)
    : list header :=
  if negb (bool_decide (request_version = "HTTP/0.9")) then buf ++ [(k, v)] else buf.

Definition end_headers (request_version path : string) (buf : list header) : list header :=
  let buf := send_header request_version buf "Access-Control-Allow-Origin" "*" in
  let buf := send_header request_version buf "Access-Control-Allow-Methods"
                         "GET, POST, OPTIONS" in
  let buf := send_header request_version buf "Access-Control-Allow-Headers"
                         "Content-Type" in
  let buf :=
    if endswith_any path [".css"; ".js"; ".svg"; ".png"; ".jpg"]
    then send_header request_version buf "Cache-Control" "public, max-age=3600"
    else buf in
  buf.

(** *** [log_message] *)

Definition strftime : M string :=
  fun w => (Ret (strftime_HMS E (length (trace w))), w).

Definition log_message (format : string) (args : list string) : M unit :=
  let* timestamp := strftime in
  let message := percent E format args in
  if contains "200" message then
    print ("[" +:+ timestamp +:+ "] ✅ " +:+ message)
  else if contains "404" message then
    print ("[" +:+ timestamp +:+ "] ❌ " +:+ message)
  else
    print ("[" +:+ timestamp +:+ "] 📡 " +:+ message).

(** *** [do_GET] *)

(** The rewriting of [self.path] at the head of [do_GET]. *)
Definition route (path : string) : M string :=
  if bool_decide (path = "/") then
    ret "/dashboard_index.html"
  else if bool_decide (path = "/unsafe") || bool_decide (path = "/unsafe/") then
    ret "/unsafe_ffi_dashboard_v2.html"
  else if bool_decide (path = "/memory") || bool_decide (path = "/memory/") then
    ret "/memory_analysis_dashboard.html"
  else if bool_decide (path = "/classic") || bool_decide (path = "/classic/") then
    ret "/index.html"
  else if bool_decide (path = "/lifecycle") || bool_decide (path = "/lifecycle/") then
    let* present := os_path_exists "web_dashboard/lifecycle_dashboard.html" in
    if negb present then ret "/memory_analysis_dashboard.html"
    else ret "/lifecycle_dashboard.html"
  else
    ret path.

(** The reading of the clock: so many events have happened. *)
Definition now : M nat := fun w => (Ret (length (trace w)), w).

(** [super().do_GET()] for the request [r] with [self.path = path]: the base
    class logs, sends its status and headers, calls [self.end_headers()],
    sends the body. *)
Definition super_do_GET (r : request) (path : string) : M unit :=
  let* files := get_fs in
  let* clock := now in
  let reply := base_do_GET E r path files clock in
  for_each (fun l => log_message (fst l) (snd l)) (reply_logs reply) >>
  emit (EvResponse (reply_status reply)
                   (end_headers (request_version r) path (reply_headers reply))
                   (reply_body reply)).

Definition do_GET (r : request) : M unit :=
  let* path := route (request_path r) in
  super_do_GET r path.

End Handler.

(** ** [create_dashboard_index] *)

(** The lines of the [index_content] literal, in order. *)
Definition index_lines : list string := [
  "<!DOCTYPE html>";
  "<html lang=" +:+ dq +:+ "en" +:+ dq +:+ ">";
  "<head>";
  "    <meta charset=" +:+ dq +:+ "UTF-8" +:+ dq +:+ ">";
  "    <meta name=" +:+ dq +:+ "viewport" +:+ dq +:+ " content=" +:+ dq +:+ "width=device-width, initial-scale=1.0" +:+ dq +:+ ">";
  "    <title>🦀 Memory Analysis Dashboard - Home</title>";
  "    <link rel=" +:+ dq +:+ "stylesheet" +:+ dq +:+ " href=" +:+ dq +:+ "styles.css" +:+ dq +:+ ">";
  "    <style>";
  "        body {";
  "            font-family: -apple-system, BlinkMacSystemFont, 'Segoe UI', Roboto, sans-serif;";
  "            margin: 0;";
  "            padding: 0;";
  "            background: linear-gradient(135deg, #667eea 0%, #764ba2 100%);";
  "            min-height: 100vh;";
  "        }";
  "        ";
  "        .container {";
  "            max-width: 1200px;";
  "            margin: 0 auto;";
  "            padding: 40px 20px;";
  "        }";
  "        ";
  "        .header {";
  "            text-align: center;";
  "            color: white;";
  "            margin-bottom: 50px;";
  "        }";
  "        ";
  "        .header h1 {";
  "            font-size: 3rem;";
  "            margin-bottom: 10px;";
  "            text-shadow: 0 2px 4px rgba(0,0,0,0.3);";
  "        }";
  "        ";
  "        .header p {";
  "            font-size: 1.2rem;";
  "            opacity: 0.9;";
  "        }";
  "        ";
  "        .dashboard-grid {";
  "            display: grid;";
  "            grid-template-columns: repeat(auto-fit, minmax(350px, 1fr));";
  "            gap: 30px;";
  "            margin-top: 40px;";
  "        }";
  "        ";
  "        .dashboard-card {";
  "            background: white;";
  "            border-radius: 16px;";
  "            padding: 30px;";
  "            box-shadow: 0 10px 30px rgba(0,0,0,0.2);";
  "            transition: transform 0.3s ease, box-shadow 0.3s ease;";
  "            text-decoration: none;";
  "            color: inherit;";
  "            position: relative;";
  "            overflow: hidden;";
  "        }";
  "        ";
  "        .dashboard-card:hover {";
  "            transform: translateY(-5px);";
  "            box-shadow: 0 20px 40px rgba(0,0,0,0.3);";
  "        }";
  "        ";
  "        .dashboard-card::before {";
  "            content: '';";
  "            position: absolute;";
  "            top: 0;";
  "            left: 0;";
  "            right: 0;";
  "            height: 4px;";
  "            background: linear-gradient(90deg, #667eea, #764ba2);";
  "        }";
  "        ";
  "        .card-icon {";
  "            font-size: 3rem;";
  "            margin-bottom: 20px;";
  "            display: block;";
  "        }";
  "        ";
  "        .card-title {";
  "            font-size: 1.5rem;";
  "            font-weight: bold;";
  "            margin-bottom: 15px;";
  "            color: #2c3e50;";
  "        }";
  "        ";
  "        .card-description {";
  "            color: #666;";
  "            line-height: 1.6;";
  "            margin-bottom: 20px;";
  "        }";
  "        ";
  "        .card-features {";
  "            list-style: none;";
  "            padding: 0;";
  "            margin: 0;";
  "        }";
  "        ";
  "        .card-features li {";
  "            padding: 5px 0;";
  "            color: #7f8c8d;";
  "            font-size: 0.9rem;";
  "        }";
  "        ";
  "        .card-features li:before {";
  "            content: " +:+ dq +:+ "✓ " +:+ dq +:+ ";";
  "            color: #27ae60;";
  "            font-weight: bold;";
  "        }";
  "        ";
  "        .status-indicator {";
  "            display: inline-block;";
  "            width: 10px;";
  "            height: 10px;";
  "            border-radius: 50%;";
  "            margin-right: 8px;";
  "            animation: pulse 2s infinite;";
  "        }";
  "        ";
  "        @keyframes pulse {";
  "            0% { opacity: 1; }";
  "            50% { opacity: 0.5; }";
  "            100% { opacity: 1; }";
  "        }";
  "        ";
  "        .status-ready { background: #27ae60; }";
  "        .status-beta { background: #f39c12; }";
  "        .status-dev { background: #e74c3c; }";
  "        ";
  "        .footer {";
  "            text-align: center;";
  "            color: white;";
  "            margin-top: 60px;";
  "            opacity: 0.8;";
  "        }";
  "        ";
  "        .data-status {";
  "            background: rgba(255,255,255,0.1);";
  "            border-radius: 12px;";
  "            padding: 25px;";
  "            margin-bottom: 30px;";
  "            color: white;";
  "            backdrop-filter: blur(10px);";
  "        }";
  "        ";
  "        .data-status h3 {";
  "            margin-top: 0;";
  "            display: flex;";
  "            align-items: center;";
  "            gap: 10px;";
  "        }";
  "        ";
  "        .quick-links {";
  "            display: flex;";
  "            justify-content: center;";
  "            gap: 15px;";
  "            margin-top: 30px;";
  "            flex-wrap: wrap;";
  "        }";
  "        ";
  "        .quick-link {";
  "            background: rgba(255,255,255,0.2);";
  "            color: white;";
  "            padding: 10px 20px;";
  "            border-radius: 25px;";
  "            text-decoration: none;";
  "            font-size: 0.9rem;";
  "            transition: background 0.3s ease;";
  "        }";
  "        ";
  "        .quick-link:hover {";
  "            background: rgba(255,255,255,0.3);";
  "        }";
  "    </style>";
  "</head>";
  "<body>";
  "    <div class=" +:+ dq +:+ "container" +:+ dq +:+ ">";
  "        <div class=" +:+ dq +:+ "header" +:+ dq +:+ ">";
  "            <h1>🔍 Memory Analysis Dashboard</h1>";
  "            <p>Comprehensive Rust memory tracking and analysis suite</p>";
  "            ";
  "            <div class=" +:+ dq +:+ "quick-links" +:+ dq +:+ ">";
  "                <a href=" +:+ dq +:+ "/unsafe" +:+ dq +:+ " class=" +:+ dq +:+ "quick-link" +:+ dq +:+ ">🔒 Unsafe/FFI</a>";
  "                <a href=" +:+ dq +:+ "/memory" +:+ dq +:+ " class=" +:+ dq +:+ "quick-link" +:+ dq +:+ ">📊 Memory</a>";
  "                <a href=" +:+ dq +:+ "/lifecycle" +:+ dq +:+ " class=" +:+ dq +:+ "quick-link" +:+ dq +:+ ">⏱️ Lifecycle</a>";
  "                <a href=" +:+ dq +:+ "/classic" +:+ dq +:+ " class=" +:+ dq +:+ "quick-link" +:+ dq +:+ ">🎛️ Classic</a>";
  "            </div>";
  "        </div>";
  "        ";
  "        <div class=" +:+ dq +:+ "data-status" +:+ dq +:+ ">";
  "            <h3>📊 Data Status</h3>";
  "            <p id=" +:+ dq +:+ "data-status-text" +:+ dq +:+ ">🔄 Checking for analysis data...</p>";
  "        </div>";
  "        ";
  "        <div class=" +:+ dq +:+ "dashboard-grid" +:+ dq +:+ ">";
  "            <a href=" +:+ dq +:+ "unsafe_ffi_dashboard_v2.html" +:+ dq +:+ " class=" +:+ dq +:+ "dashboard-card" +:+ dq +:+ ">";
  "                <span class=" +:+ dq +:+ "card-icon" +:+ dq +:+ ">🔒</span>";
  "                <div class=" +:+ dq +:+ "card-title" +:+ dq +:+ ">";
  "                    <span class=" +:+ dq +:+ "status-indicator status-ready" +:+ dq +:+ "></span>";
  "                    Unsafe/FFI Analysis";
  "                </div>";
  "                <div class=" +:+ dq +:+ "card-description" +:+ dq +:+ ">";
  "                    Monitor unsafe operations and foreign function interface calls with real-time risk assessment and memory violation detection.";
  "                </div>";
  "                <ul class=" +:+ dq +:+ "card-features" +:+ dq +:+ ">";
  "                    <li>Unsafe operation tracking</li>";
  "                    <li>FFI call monitoring</li>";
  "                    <li>Memory violation detection</li>";
  "                    <li>Risk scoring system</li>";
  "                    <li>SVG export support</li>";
  "                </ul>";
  "            </a>";
  "            ";
  "            <a href=" +:+ dq +:+ "memory_analysis_dashboard.html" +:+ dq +:+ " class=" +:+ dq +:+ "dashboard-card" +:+ dq +:+ ">";
  "                <span class=" +:+ dq +:+ "card-icon" +:+ dq +:+ ">📊</span>";
  "                <div class=" +:+ dq +:+ "card-title" +:+ dq +:+ ">";
  "                    <span class=" +:+ dq +:+ "status-indicator status-ready" +:+ dq +:+ "></span>";
  "                    Memory Analysis";
  "                </div>";
  "                <div class=" +:+ dq +:+ "card-description" +:+ dq +:+ ">";
  "                    Comprehensive memory usage analysis with allocation tracking, performance metrics, and efficiency monitoring.";
  "                </div>";
  "                <ul class=" +:+ dq +:+ "card-features" +:+ dq +:+ ">";
  "                    <li>Memory usage timeline</li>";
  "                    <li>Allocation size distribution</li>";
  "                    <li>Performance metrics</li>";
  "                    <li>Memory efficiency tracking</li>";
  "                    <li>Interactive charts</li>";
  "                </ul>";
  "            </a>";
  "            ";
  "            <a href=" +:+ dq +:+ "unsafe_ffi_dashboard.html" +:+ dq +:+ " class=" +:+ dq +:+ "dashboard-card" +:+ dq +:+ ">";
  "                <span class=" +:+ dq +:+ "card-icon" +:+ dq +:+ ">🛡️</span>";
  "                <div class=" +:+ dq +:+ "card-title" +:+ dq +:+ ">";
  "                    <span class=" +:+ dq +:+ "status-indicator status-ready" +:+ dq +:+ "></span>";
  "                    Unsafe/FFI (Classic)";
  "                </div>";
  "                <div class=" +:+ dq +:+ "card-description" +:+ dq +:+ ">";
  "                    Original unsafe operations dashboard with detailed memory safety analysis and visualization.";
  "                </div>";
  "                <ul class=" +:+ dq +:+ "card-features" +:+ dq +:+ ">";
  "                    <li>Classic interface design</li>";
  "                    <li>Detailed safety metrics</li>";
  "                    <li>Memory violation tracking</li>";
  "                    <li>Risk assessment</li>";
  "                    <li>Legacy compatibility</li>";
  "                </ul>";
  "            </a>";
  "            ";
  "            <a href=" +:+ dq +:+ "index.html" +:+ dq +:+ " class=" +:+ dq +:+ "dashboard-card" +:+ dq +:+ ">";
  "                <span class=" +:+ dq +:+ "card-icon" +:+ dq +:+ ">🎛️</span>";
  "                <div class=" +:+ dq +:+ "card-title" +:+ dq +:+ ">";
  "                    <span class=" +:+ dq +:+ "status-indicator status-ready" +:+ dq +:+ "></span>";
  "                    Classic Dashboard";
  "                </div>";
  "                <div class=" +:+ dq +:+ "card-description" +:+ dq +:+ ">";
  "                    Original dashboard interface with basic memory tracking and visualization features for simple analysis.";
  "                </div>";
  "                <ul class=" +:+ dq +:+ "card-features" +:+ dq +:+ ">";
  "                    <li>Basic memory tracking</li>";
  "                    <li>Simple visualization</li>";
  "                    <li>Legacy compatibility</li>";
  "                    <li>Lightweight interface</li>";
  "                    <li>Quick overview</li>";
  "                </ul>";
  "            </a>";
  "        </div>";
  "        ";
  "        <div class=" +:+ dq +:+ "footer" +:+ dq +:+ ">";
  "            <p>🦀 Rust Memory Analysis Dashboard | Built with ❤️ for memory safety</p>";
  "            <p>Server running on <span id=" +:+ dq +:+ "server-info" +:+ dq +:+ "></span></p>";
  "            <p><small>Use Ctrl+C to stop the server</small></p>";
  "        </div>";
  "    </div>";
  "    ";
  "    <script>";
  "        // Check data availability";
  "        async function checkDataStatus() {";
  "            try {";
  "                const response = await fetch('data.json');";
  "                if (response.ok) {";
  "                    const data = await response.json();";
  "                    const allocCount = data.memory_stats?.total_allocations || 0;";
  "                    const unsafeOps = data.unsafe_stats?.total_operations || 0;";
  "                    ";
  "                    document.getElementById('data-status-text').innerHTML = ";
  "                        `✅ Analysis data loaded successfully<br>` +";
  "                        `📈 ${allocCount.toLocaleString()} allocations tracked<br>` +";
  "                        `🔒 ${unsafeOps.toLocaleString()} unsafe operations monitored<br>` +";
  "                        `🕒 Last updated: ${new Date().toLocaleString()}`;";
  "                } else {";
  "                    throw new Error('Data not found');";
  "                }";
  "            } catch (error) {";
  "                document.getElementById('data-status-text').innerHTML = ";
  "                    `⚠️ No analysis data found. Run a Rust example to generate data:<br>` +";
  "                    `<code style=" +:+ dq +:+ "background: rgba(255,255,255,0.2); padding: 4px 8px; border-radius: 4px;" +:+ dq +:+ ">cargo run --example unsafe_ffi_demo</code><br>` +";
  "                    `<code style=" +:+ dq +:+ "background: rgba(255,255,255,0.2); padding: 4px 8px; border-radius: 4px;" +:+ dq +:+ ">cargo run --example memory_stress_test</code>`;";
  "            }";
  "        }";
  "        ";
  "        // Update server info";
  "        document.getElementById('server-info').textContent = window.location.host;";
  "        ";
  "        // Check data status on load";
  "        checkDataStatus();";
  "        ";
  "        // Refresh data status every 30 seconds";
  "        setInterval(checkDataStatus, 30000);";
  "    </script>";
  "</body>";
  "</html>"
].

Definition index_content : string := join nl index_lines.

(** [with open(path, "w", encoding="utf-8") as f: f.write(content)], for a
    path [parent/name]: the parent has to be a directory and the path must not
    name one; an existing file is truncated and rewritten. *)
Definition write_file (parent name content : string) : M unit :=
  let path := parent +:+ "/" +:+ name in
  let* files := get_fs in
  match files !! parent, files !! path with
  | Some Dir, Some Dir => raise (OSError "Is a directory")
  | Some Dir, _ =>
      fun w => (Ret tt, World (<[path := File content]> (fs w)) (trace w ++ [EvWrite path]))
  | Some (File _), _ => raise (OSError "Not a directory")
  | None, _ => raise (OSError "No such file or directory")
  end.

Definition create_dashboard_index : M unit :=
  write_file "web_dashboard" "dashboard_index.html" index_content.

(** *** Reading a page back: the cards it shows

    A card of the landing page is an anchor
    [<a href="TARGET" class="dashboard-card">]; it links to TARGET. *)

Fixpoint strip_prefix (pre s : string) {struct pre} : option string :=
  match pre, s with
  | EmptyString, _ => Some s
  | String a pre', String b s' =>
      if bool_decide (a = b) then strip_prefix pre' s' else None
  | String _ _, EmptyString => None
  end.

(** The text up to the next double quote, and what follows that quote. *)
Fixpoint until_dq (s : string) : option (string * string) :=
  match s with
  | EmptyString => None
  | String c s' =>
      if bool_decide (c = Ascii.ascii_of_nat 34) then Some (EmptyString, s')
      else match until_dq s' with
           | Some (t, r) => Some (String c t, r)
           | None => None
           end
  end.

Definition card_at (s : string) : option string :=
  match strip_prefix ("<a href=" +:+ dq) s with
  | Some rest =>
      match until_dq rest with
      | Some (target, rest') =>
          if startswith rest' (" class=" +:+ dq +:+ "dashboard-card" +:+ dq +:+ ">")
          then Some target else None
      | None => None
      end
  | None => None
  end.

Fixpoint card_links (page : string) : list string :=
  match page with
  | EmptyString => []
  | String _ page' =>
      match card_at page with
      | Some target => target :: card_links page'
      | None => card_links page'
      end
  end.

(** The dashboard files a landing page stored in the file system advertises. *)
Definition advertised (files : gmap string node) : option (list string) :=
  match files !! "web_dashboard/dashboard_index.html" with
  | Some (File page) => Some (card_links page)
  | _ => None
  end.

(** ** Start-up: data probe, port probe, dashboard list *)

Section Server.

Variable E : env.

Record data_status : Type := DataStatus {
  has_data : bool;
  data_size : Z;
  last_modified : option Z
}.

(** [path.stat().st_size] and [path.stat().st_mtime] *)
Definition stat_size (path : string) : M Z :=
  emit (EvStat path) >>
  let* files := get_fs in
  match files !! path with
  | Some (File content) => ret (Z.of_nat (String.length content))
  | Some Dir => ret (dir_size E)
  | None => raise (OSError "No such file or directory")
  end.

Definition stat_mtime_of (path : string) : M Z :=
  emit (EvStat path) >>
  let* files := get_fs in
  match files !! path with
  | Some _ => ret (stat_mtime E path)
  | None => raise (OSError "No such file or directory")
  end.

Definition check_data_files : M data_status :=
  let data_file := "web_dashboard/data.json" in
  let* present := os_path_exists data_file in
  let status := DataStatus present 0 None in
  let* present' := os_path_exists data_file in
  if present' then
    let* size := stat_size data_file in
    let* mtime := stat_mtime_of data_file in
    ret (DataStatus present size (Some mtime))
  else
    print "⚠️  Warning: data.json not found in web_dashboard/" >>
    print "   Run a Rust example to generate data:" >>
    print "   🔒 cargo run --example unsafe_ffi_demo" >>
    print "   📊 cargo run --example memory_stress_test" >>
    print "   ⏱️  cargo run --example lifecycles_simple" >>
    print EmptyString >>
    ret status.

(** [range(lo, hi)] *)
Definition py_range (lo hi : Z) : list Z := seqZ lo (hi - lo).

(** [s.bind(('localhost', port))]: Python refuses a port outside 0..65535
    with an [OverflowError] before asking the operating system, which
    answers a valid port with success or an [OSError]. *)
Definition sock_bind (port : Z) : M unit :=
  emit (EvBind port) >>
  if (port <? 0) || (65535 <? port) then
    raise (OverflowError "bind(): port must be 0-65535.")
  else if port_free E port then ret tt
  else raise (OSError "Address already in use").

(** One turn of the loop body up to its [return]:
    [with socket.socket(...) as s: s.bind(('localhost', port)); return port] *)
Definition probe (port : Z) : M Z :=
  emit EvSocket >>
  with_exit (sock_bind port >> ret port) EvClose.

(** The [for] loop followed by the [raise]; [except OSError: continue] goes
    on with the ports that are left. *)
Fixpoint probe_ports (ports : list Z) : M Z :=
  match ports with
  | [] => raise (RuntimeError "No available ports found")
  | port :: rest =>
      try_except (probe port)
        (fun e => match e with
                  | OSError _ => Some (probe_ports rest)
                  | _ => None
                  end)
  end.

Definition find_available_port (start_port : Z) : M Z :=
  probe_ports (py_range start_port (start_port + 100)).

Definition known_dashboards : list (string * string) :=
  [ ("dashboard_index.html", "🏠 Main Dashboard Index");
    ("index.html", "🎛️ Classic Dashboard");
    ("memory_analysis_dashboard.html", "📊 Memory Analysis Dashboard");
    ("unsafe_ffi_dashboard.html", "🔒 Unsafe/FFI Dashboard (Classic)");
    ("unsafe_ffi_dashboard_v2.html", "🔒 Unsafe/FFI Dashboard (Enhanced)") ].

(** The loop of [list_available_dashboards], the list built so far in hand. *)
Fixpoint list_dashboards_from (known : list (string * string))
    (dashboards : list (string * string * Z)) : M (list (string * string * Z)) :=
  match known with
  | [] => ret dashboards
  | (file_name, description) :: known' =>
      let file_path := "web_dashboard" +:+ "/" +:+ file_name in
      let* present := os_path_exists file_path in
      if present then
        let* size := stat_size file_path in
        list_dashboards_from known' (dashboards ++ [(file_name, description, size)])
      else
        list_dashboards_from known' dashboards
  end.

Definition list_available_dashboards : M (list (string * string * Z)) :=
  list_dashboards_from known_dashboards [].

(** ** [start_server] *)

(** What reaches the serving loop from outside: a GET request, or the
    operator's interrupt (Ctrl+C) delivered while the loop serves.  An
    interrupt delivered earlier, during start-up, is outside the [try] of
    [start_server] and is not among the runs described here. *)
Inductive incoming : Type :=
| InRequest (r : request)
| InInterrupt.

(** The request of a request line [GET path HTTP/1.1] without header lines,
    and its arrival. *)
Definition plain_get (path : string) : request :=
  Request ("GET " +:+ path +:+ " HTTP/1.1") "HTTP/1.1" path [].

Definition InGET (path : string) : incoming := InRequest (plain_get path).

(** [httpd.serve_forever()] against the arrivals to come.  A handler's own
    failure never leaves the loop; the interrupt does, as
    [KeyboardInterrupt]; with nothing left to arrive the loop waits. *)
Fixpoint serve_forever (inbox : list incoming) : M unit :=
  match inbox with
  | [] => blocked
  | InRequest r :: inbox' => do_GET E r >> serve_forever inbox'
  | InInterrupt :: _ => raise KeyboardInterrupt
  end.

(** ["=" * 60] *)
Fixpoint str_mul (s : string) (n : nat) : string :=
  match n with
  | O => EmptyString
  | S n' => s +:+ str_mul s n'
  end.

(** Lines 462-465: the landing page is written only when it is missing. *)
Definition ensure_index_page : M unit :=
  let* present := os_path_exists "web_dashboard/dashboard_index.html" in
  if negb present then
    print "📝 Creating enhanced dashboard index..." >>
    create_dashboard_index
  else ret tt.

(** [socketserver.TCPServer(("", port), DashboardHandler)] *)
Definition tcp_server (port : Z) : M unit :=
  if listen_ok E port then emit (EvListen port)
  else raise (OSError (listen_error E port)).

(** The body of the [with socketserver.TCPServer(...) as httpd:] block. *)
Definition serve_block (inbox : list incoming) (data : data_status)
    (dashboards : list (string * string * Z)) (port : Z) (auto_open : bool) : M unit :=
  let server_url := "http://localhost:" +:+ pretty port in
  print "🚀 Memory Analysis Dashboard Server" >>
  print (str_mul "=" 60) >>
  print ("📡 Server running at: " +:+ server_url) >>
  print ("📁 Serving from: " +:+ abspath E "web_dashboard") >>
  print ("📊 Data available: " +:+ (if has_data data then "✅ Yes" else "❌ No")) >>
  (if has_data data
   then print ("📦 Data size: " +:+ fmt_kb E (data_size data) +:+ " KB")
   else ret tt) >>
  print EmptyString >>
  print "Available dashboards:" >>
  print ("  🏠 Main Dashboard:     " +:+ server_url +:+ "/") >>
  print ("  🔒 Unsafe/FFI (New):   " +:+ server_url +:+ "/unsafe") >>
  print ("  📊 Memory Analysis:    " +:+ server_url +:+ "/memory") >>
  print ("  🎛️  Classic Dashboard:  " +:+ server_url +:+ "/classic") >>
  print EmptyString >>
  print "Direct links:" >>
  for_each (fun d : string * string * Z =>
              let '(file_name, description, size) := d in
              print ("  " +:+ description +:+ ": " +:+ server_url +:+ "/" +:+ file_name
                     +:+ " (" +:+ fmt_kb E size +:+ " KB)"))
           dashboards >>
  print EmptyString >>
  print "Quick commands:" >>
  print "  Press Ctrl+C to stop the server" >>
  print "  Visit any URL above to access the dashboards" >>
  print (str_mul "=" 60) >>
  (if auto_open then emit (EvThread server_url) else ret tt) >>
  serve_forever inbox.

(** Everything of [start_server] before its last [try]: the root check, the
    landing page, the data probe, the dashboard list and the port probe. *)
Definition startup (port : Z) : M (data_status * list (string * string * Z) * Z) :=
  let* root := os_path_exists "web_dashboard" in
  (if negb root then
     print "❌ Error: web_dashboard directory not found!" >>
     print "   Make sure you're running this script from the project root." >>
     sys_exit 1
   else ret tt) >>
  ensure_index_page >>
  let* data := check_data_files in
  let* dashboards := list_available_dashboards in
  let* port :=
    try_except (find_available_port port)
      (fun e => match e with
                | RuntimeError msg => Some (print ("❌ Error: " +:+ msg) >> sys_exit 1)
                | _ => None
                end) in
  ret (data, dashboards, port).

Definition start_server (inbox : list incoming) (port : Z) (auto_open : bool) : M unit :=
  let* s := startup port in
  let '(data, dashboards, port) := s in
  try_except
    (tcp_server port >>
     with_exit (serve_block inbox data dashboards port auto_open) EvServerClose)
    (fun e => match e with
              | KeyboardInterrupt =>
                  Some (print (nl +:+ "👋 Server stopped by user") >>
                        print "   Thanks for using the Memory Analysis Dashboard!")
              | SystemExit _ => None
              | RuntimeError msg | OSError msg | OverflowError msg =>
                  Some (print ("❌ Server error: " +:+ msg) >> sys_exit 1)
              end).

(** [main] after [parse_args]. *)
Definition main (inbox : list incoming) (port : Z) (no_browser : bool) : M unit :=
  start_server inbox port (negb no_browser).

End Server.

(** The status the interpreter ends with: 0 when the script runs to its end,
    the argument of [sys.exit], 130 for an interrupt nobody caught, 1 for
    any other exception; none while the script is still waiting. *)
Definition exit_code {A : Type} (o : outcome A) : option Z :=
  match o with
  | Ret _ => Some 0
  | Raise (SystemExit code) => Some code
  | Raise KeyboardInterrupt => Some 130
  | Raise _ => Some 1
  | Blocked => None
  end.

(** ** Reading the console and the trace *)

(** The three marks [log_message] prints stand for the three classes. *)
Inductive classification : Type :=
| Success
| NotFound
| Other.

Definition mark (c : classification) : string :=
  match c with
  | Success => "✅"
  | NotFound => "❌"
  | Other => "📡"
  end.

(** The console line of class [c] for a message at a time stamp. *)
Definition log_line (timestamp : string) (c : classification) (message : string) : string :=
  "[" +:+ timestamp +:+ "] " +:+ mark c +:+ " " +:+ message.

(** [sub] occurs somewhere in [s]. *)
Definition occurs (sub s : string) : Prop :=
  exists l r, s = l +:+ sub +:+ r.

(** The call [BaseHTTPRequestHandler.log_request(code)] makes when a
    response with status [code] is sent:
    [self.log_message('"%s" %s %s', self.requestline, str(code), '-')]. *)
Definition request_log_format : string := dq +:+ "%s" +:+ dq +:+ " %s %s".

Definition request_log_args (requestline : string) (code : Z) : list string :=
  [requestline; pretty code; "-"].

(** The message that call formats. *)
Definition request_log_message (requestline : string) (code : Z) : string :=
  dq +:+ requestline +:+ dq +:+ " " +:+ pretty code +:+ " -".

(** The class the branches of [log_message] give a formatted message. *)
Definition classify (message : string) : classification :=
  if contains "200" message then Success
  else if contains "404" message then NotFound
  else Other.

(** The class the status of a response alone would give: the 2xx range,
    404, the rest. *)
Definition class_of_status (code : Z) : classification :=
  if (200 <=? code) && (code <=? 299) then Success
  else if code =? 404 then NotFound
  else Other.

(** The headers [end_headers] adds. *)
Definition cors_headers : list header :=
  [ ("Access-Control-Allow-Origin", "*");
    ("Access-Control-Allow-Methods", "GET, POST, OPTIONS");
    ("Access-Control-Allow-Headers", "Content-Type") ].

Definition cache_header : header := ("Cache-Control", "public, max-age=3600").

Definition asset_extensions : list string := [".css"; ".js"; ".svg"; ".png"; ".jpg"].

(** The landing page can be written: [web_dashboard] is a directory and the
    page's path does not name one. *)
Definition writable (w : world) : Prop :=
  fs w !! "web_dashboard" = Some Dir /\
  fs w !! "web_dashboard/dashboard_index.html" <> Some Dir.

(** The four cards of the [index_content] literal. *)
Definition fixed_cards : list string :=
  [ "unsafe_ffi_dashboard_v2.html"; "memory_analysis_dashboard.html";
    "unsafe_ffi_dashboard.html"; "index.html" ].

(** The anchor that opens the card of a dashboard file. *)
Definition card_anchor (target : string) : string :=
  "<a href=" +:+ dq +:+ target +:+ dq +:+ " class=" +:+ dq +:+ "dashboard-card" +:+ dq +:+ ">".

Definition is_response (e : event) : bool :=
  match e with
  | EvResponse _ _ _ => true
  | _ => false
  end.

(** The socket operations of the trace. *)
Definition is_socket_event (e : event) : bool :=
  match e with
  | EvSocket | EvBind _ | EvClose | EvListen _ | EvServerClose | EvResponse _ _ _ => true
  | _ => false
  end.

Definition responses (t : list event) : nat := length (filter is_response t).

(** The world after more events. *)
Definition after (w : world) (evs : list event) : world :=
  World (fs w) (trace w ++ evs).

(** A step that returns having added events none of which is a response. *)
Definition quiet (m : M unit) : Prop :=
  forall w, exists evs, m w = (Ret tt, after w evs) /\ responses evs = 0%nat.

(** A continuation that, after such events, is the serving loop. *)
Definition leads (E : env) (k : list incoming -> M unit) : Prop :=
  forall w, exists evs,
    responses evs = 0%nat /\
    forall inbox, k inbox w = serve_forever E inbox (after w evs).

(** The events of one probe of [find_available_port]. *)
Definition probe_events (port : Z) : list event := [EvSocket; EvBind port; EvClose].

(** ** Invariants of a run *)

(** Every run of [m] takes a world to one related to it by [R]. *)
Definition respects {A : Type} (R : world -> world -> Prop) (m : M A) : Prop :=
  forall w, R w (snd (m w)).

(** [m] returns or raises an exception in [P]; it never waits. *)
Definition raises_only {A : Type} (P : exn -> Prop) (m : M A) : Prop :=
  forall w,
    match fst (m w) with
    | Ret _ => True
    | Raise e => P e
    | Blocked => False
    end.

(** The trace has grown, by events in [P] only. *)
Definition adds_only (P : event -> Prop) (w w' : world) : Prop :=
  exists evs, trace w' = trace w ++ evs /\ Forall P evs.

(** Every path but the landing page holds what it held; and all paths do
    when the landing page was there. *)
Definition keeps_files (w w' : world) : Prop :=
  (forall path, path <> "web_dashboard/dashboard_index.html" ->
                fs w' !! path = fs w !! path) /\
  (is_Some (fs w !! "web_dashboard/dashboard_index.html") -> fs w' = fs w).

(** The events of [start_server] before the server is created, the write of
    the landing page apart. *)
Definition startup_event (e : event) : Prop :=
  match e with
  | EvPrint _ | EvExists _ | EvStat _ | EvSocket | EvBind _ | EvClose => True
  | _ => False
  end.

(** The events of [start_server] from the creation of the server on; the
    browser thread is started only with [auto_open]. *)
Definition serving_event (auto_open : bool) (e : event) : Prop :=
  match e with
  | EvPrint _ | EvExists _ | EvListen _ | EvResponse _ _ _ | EvServerClose => True
  | EvThread _ => auto_open = true
  | _ => False
  end.

Definition is_thread (e : event) : bool :=
  match e with
  | EvThread _ => true
  | _ => false
  end.

(** The exceptions [startup] lets through. *)
Definition startup_exn (e : exn) : Prop :=
  e = SystemExit 1 \/ (exists msg, e = OSError msg) \/ (exists msg, e = OverflowError msg).



(** The part of a request path that names the file to serve: the base
    class's [translate_path] drops the query, from the first [?], and the
    fragment, from the first [#]. *)
Fixpoint file_part (path : string) : string :=
  match path with
  | EmptyString => EmptyString
  | String c rest =>
      if bool_decide (c = Ascii.ascii_of_nat 63) || bool_decide (c = Ascii.ascii_of_nat 35)
      then EmptyString
      else String c (file_part rest)
  end.

(** ** A concrete environment

    Used where a statement is run on an input: [%] with [%s] and [%d]
    directives, a base class that serves files of [web_dashboard] and logs as
    [http.server] does, every port below 8082 taken. *)

Fixpoint percent_s (format : string) (args : list string) : string :=
  match format with
  | EmptyString => EmptyString
  | String c rest =>
      match bool_decide (c = Ascii.ascii_of_nat 37), rest, args with
      | true, String d rest', a :: args' =>
          if bool_decide (d = Ascii.ascii_of_nat 115) || bool_decide (d = Ascii.ascii_of_nat 100)
          then a +:+ percent_s rest' args'
          else String c (percent_s rest args)
      | _, _, _ => String c (percent_s rest args)
      end
  end.

Definition demo_base (r : request) (path : string) (files : gmap string node)
    (clock : nat) : base_reply :=
  let headers_of (hs : list header) :=
    if bool_decide (request_version r = "HTTP/0.9") then [] else hs in
  match files !! ("web_dashboard" +:+ file_part path) with
  | Some (File content) =>
      BaseReply [(request_log_format, request_log_args (requestline r) 200)]
                200 (headers_of [("Content-type", "text/html")]) content
  | _ =>
      BaseReply [("code %d, message %s", ["404"; "File not found"]);
                 (request_log_format, request_log_args (requestline r) 404)]
                404 (headers_of [("Content-Type", "text/html;charset=utf-8")])
                "File not found"
  end.

Definition demo_env : env := {|
  port_free := fun p => 8082 <=? p;
  listen_ok := fun _ => true;
  listen_error := fun _ => "[Errno 98] Address already in use";
  strftime_HMS := fun _ => "12:00:00";
  percent := percent_s;
  fmt_kb := fun n => pretty (n / 1024) +:+ ".0";
  abspath := fun p => "/project/" +:+ p;
  dir_size := 4096;
  stat_mtime := fun _ => 0;
  base_do_GET := demo_base
|}.

(** Every port taken. *)
Definition busy_env : env := {|
  port_free := fun _ => false;
  listen_ok := listen_ok demo_env;
  listen_error := listen_error demo_env;
  strftime_HMS := strftime_HMS demo_env;
  percent := percent demo_env;
  fmt_kb := fmt_kb demo_env;
  abspath := abspath demo_env;
  dir_size := dir_size demo_env;
  stat_mtime := stat_mtime demo_env;
  base_do_GET := base_do_GET demo_env
|}.

(** The ports free for the probe, but taken again when the server binds. *)
Definition race_env : env := {|
  port_free := fun _ => true;
  listen_ok := fun _ => false;
  listen_error := listen_error demo_env;
  strftime_HMS := strftime_HMS demo_env;
  percent := percent demo_env;
  fmt_kb := fmt_kb demo_env;
  abspath := abspath demo_env;
  dir_size := dir_size demo_env;
  stat_mtime := stat_mtime demo_env;
  base_do_GET := base_do_GET demo_env
|}.

(** A project root without [web_dashboard]; one with an empty
    [web_dashboard]; one where only the lifecycle page is there. *)
Definition empty_world : world := World ∅ [].

Definition bare_world : world := World {[ "web_dashboard" := Dir ]} [].

Definition lifecycle_world : world :=
  World (<[ "web_dashboard/lifecycle_dashboard.html" := File "<html></html>" ]>
           {[ "web_dashboard" := Dir ]}) [].

(** * Theorems *)

(** ** Strings *)

Lemma startswith_spec s pre :
  startswith s pre = true <-> exists rest, s = pre +:+ rest.
Proof.
  revert s; induction pre as [|a pre IH]; intros s; simpl.
  - split; [intros _; by exists s | done].
  - destruct s as [|b s]; simpl.
    + split; [done | intros [rest H]; discriminate].
    + rewrite andb_true_iff, bool_decide_eq_true, IH. split.
      * intros [-> [rest ->]]. by exists rest.
      * intros [rest H]. injection H as -> ->. split; [done | by exists rest].
Qed.

Lemma contains_spec sub s :
  contains sub s = true <-> exists l r, s = l +:+ sub +:+ r.
Proof.
  induction s as [|c s IH]; simpl.
  - rewrite orb_false_r, startswith_spec. split.
    + intros [rest H]. by exists EmptyString, rest.
    + intros [l [r H]]. destruct l; simpl in H; [by exists r | discriminate].
  - rewrite orb_true_iff, startswith_spec, IH. split.
    + intros [[rest H] | [l [r H]]].
      * by exists EmptyString, rest.
      * exists (String c l), r. simpl. by rewrite H.
    + intros [l [r H]]. destruct l as [|c' l]; simpl in H.
      * left. by exists r.
      * right. injection H as -> ->. by exists l, r.
Qed.

Lemma endswith_spec s suf :
  endswith s suf = true <-> exists pre, s = pre +:+ suf.
Proof.
  induction s as [|c s IH]; simpl.
  - rewrite orb_false_r, bool_decide_eq_true. split.
    + intros <-. by exists EmptyString.
    + intros [pre H]. destruct pre; simpl in H; [done | discriminate].
  - rewrite orb_true_iff, bool_decide_eq_true, IH. split.
    + intros [<- | [pre ->]]; [by exists EmptyString | by exists (String c pre)].
    + intros [pre H]. destruct pre as [|c' pre]; simpl in H.
      * by left.
      * right. injection H as -> ->. by exists pre.
Qed.

Lemma contains_occurs sub s : contains sub s = true <-> occurs sub s.
Proof. apply contains_spec. Qed.

Lemma not_contains_occurs sub s : contains sub s = false <-> ~ occurs sub s.
Proof. rewrite <- contains_occurs. destruct (contains sub s); split; congruence. Qed.

(** ** The monad *)

Lemma bind_ret {A B : Type} (m : M A) (k : A -> M B) (w w' : world) (a : A) :
  m w = (Ret a, w') -> bind m k w = k a w'.
Proof. unfold bind. by intros ->. Qed.

Lemma bind_raise {A B : Type} (m : M A) (k : A -> M B) (w w' : world) (e : exn) :
  m w = (Raise e, w') -> bind m k w = (Raise e, w').
Proof. unfold bind. by intros ->. Qed.

Lemma after_nil w : after w [] = w.
Proof. destruct w as [f t]. unfold after; simpl. by rewrite app_nil_r. Qed.

Lemma after_after w evs evs' : after (after w evs) evs' = after w (evs ++ evs').
Proof. unfold after; simpl. by rewrite app_assoc. Qed.

Lemma os_path_exists_run path w :
  os_path_exists path w =
  (Ret (bool_decide (is_Some (fs w !! path))), after w [EvExists path]).
Proof. reflexivity. Qed.

(** ** The aliases of [do_GET] *)

(** C1.  The head of [do_GET] rewrites the request path by exact match: [/]
    becomes the path of [dashboard_index.html] under the served directory,
    [/unsafe] and [/unsafe/] that of [unsafe_ffi_dashboard_v2.html],
    [/memory] and [/memory/] that of [memory_analysis_dashboard.html],
    [/classic] and [/classic/] that of [index.html]; [/lifecycle] and
    [/lifecycle/] become [lifecycle_dashboard.html] when that file exists at
    the call and [memory_analysis_dashboard.html] otherwise; any other path
    is returned as it is.  Only the lifecycle case looks at the file system
    (one [exists] call); in every other case the world is left as it was. *)
Theorem route_exact_match (w : world) (path : string) :
  (path = "/" -> route path w = (Ret ("/" +:+ "dashboard_index.html"), w)) /\
  (path = "/unsafe" \/ path = "/unsafe/" ->
     route path w = (Ret ("/" +:+ "unsafe_ffi_dashboard_v2.html"), w)) /\
  (path = "/memory" \/ path = "/memory/" ->
     route path w = (Ret ("/" +:+ "memory_analysis_dashboard.html"), w)) /\
  (path = "/classic" \/ path = "/classic/" ->
     route path w = (Ret ("/" +:+ "index.html"), w)) /\
  (path = "/lifecycle" \/ path = "/lifecycle/" ->
     route path w =
     (Ret ("/" +:+ (if bool_decide (is_Some (fs w !! "web_dashboard/lifecycle_dashboard.html"))
                    then "lifecycle_dashboard.html"
                    else "memory_analysis_dashboard.html")),
      after w [EvExists "web_dashboard/lifecycle_dashboard.html"])) /\
  (path ∉ ["/"; "/unsafe"; "/unsafe/"; "/memory"; "/memory/"; "/classic"; "/classic/";
           "/lifecycle"; "/lifecycle/"] ->
     route path w = (Ret path, w)).
Proof.
  repeat split.
  - by intros ->.
  - by intros [-> | ->].
  - by intros [-> | ->].
  - by intros [-> | ->].
  - intros [-> | ->]; unfold route; simpl;
      rewrite (bind_ret _ _ _ _ _ (os_path_exists_run _ w));
      by destruct (bool_decide _).
  - intros Hno. unfold route.
    repeat (case_bool_decide; [subst; exfalso; apply Hno; set_solver |]).
    reflexivity.
Qed.

(** ** The headers of [end_headers] *)

Lemma string_length_app (s t : string) :
  String.length (s +:+ t) = (String.length s + String.length t)%nat.
Proof. induction s as [|c s IH]; simpl; [done | by rewrite IH]. Qed.

(** A suffix no longer than [t] is looked for in [t] alone. *)
Lemma endswith_app (pre t suf : string) :
  (String.length suf <= String.length t)%nat ->
  endswith (pre +:+ t) suf = endswith t suf.
Proof.
  intros Hlen. induction pre as [|c pre IH]; simpl; [done |].
  rewrite IH. rewrite bool_decide_eq_false_2; [done |].
  intros Heq. apply (f_equal String.length) in Heq. simpl in Heq.
  rewrite string_length_app in Heq. lia.
Qed.

Lemma endswith_any_spec (s : string) (sufs : list string) :
  endswith_any s sufs = true <-> exists suf pre, suf ∈ sufs /\ s = pre +:+ suf.
Proof.
  unfold endswith_any. rewrite existsb_exists. split.
  - intros [suf [Hin Hend]]. apply endswith_spec in Hend as [pre ->].
    exists suf, pre. split; [by apply list_elem_of_In | done].
  - intros [suf [pre [Hin ->]]]. exists suf. split; [by apply list_elem_of_In |].
    apply endswith_spec. by exists pre.
Qed.

Lemma html_is_no_asset (pre : string) :
  endswith_any (pre +:+ ".html") asset_extensions = false.
Proof.
  unfold endswith_any, asset_extensions; simpl.
  rewrite !endswith_app by (simpl; lia). reflexivity.
Qed.

Lemma end_headers_unfold (version path : string) (buf : list header) :
  version <> "HTTP/0.9" ->
  end_headers version path buf =
  buf ++ cors_headers ++
  (if endswith_any path asset_extensions then [cache_header] else []).
Proof.
  intros Hversion.
  unfold end_headers, send_header, cors_headers, asset_extensions, cache_header.
  rewrite bool_decide_eq_false_2 by done. cbn [negb].
  destruct (endswith_any _ _); by rewrite <- ?app_assoc.
Qed.

Lemma end_headers_http09 (path : string) (buf : list header) :
  end_headers "HTTP/0.9" path buf = buf.
Proof.
  unfold end_headers, send_header. rewrite bool_decide_eq_true_2 by done.
  cbn [negb]. by destruct (endswith_any _ _).
Qed.

(** ** Running a request *)

Lemma log_message_run (E : env) (format : string) (args : list string) (w : world) :
  log_message E format args w =
  (Ret tt,
   after w [EvPrint (log_line (strftime_HMS E (length (trace w)))
                              (classify (percent E format args))
                              (percent E format args))]).
Proof.
  unfold log_message, strftime, classify, bind.
  destruct (contains "200" _); [reflexivity |].
  destruct (contains "404" _); reflexivity.
Qed.

Lemma responses_app (t t' : list event) :
  responses (t ++ t') = (responses t + responses t')%nat.
Proof. unfold responses. by rewrite filter_app, length_app. Qed.

Lemma for_each_log_run (E : env) (logs : list (string * list string)) (w : world) :
  exists evs,
    for_each (fun l => log_message E (fst l) (snd l)) logs w = (Ret tt, after w evs) /\
    length evs = length logs /\
    Forall (fun e => exists text, e = EvPrint text) evs.
Proof.
  revert w. induction logs as [|[format args] logs IH]; intros w.
  - exists []. by rewrite after_nil.
  - simpl. rewrite (bind_ret _ _ _ _ _ (log_message_run E format args w)).
    destruct (IH (after w [EvPrint (log_line (strftime_HMS E (length (trace w)))
                                      (classify (percent E format args))
                                      (percent E format args))]))
      as [evs [Hrun [Hlen Hall]]].
    eexists (_ :: evs). rewrite Hrun, after_after. split; [done |].
    split; [simpl; by rewrite Hlen |]. constructor; [by eexists | done].
Qed.

Lemma prints_no_response (evs : list event) :
  Forall (fun e => exists text, e = EvPrint text) evs -> responses evs = 0%nat.
Proof.
  induction 1 as [|e evs [text ->] _ IH]; [done |]. exact IH.
Qed.

Lemma route_run (path : string) (w : world) :
  exists path' evs,
    route path w = (Ret path', after w evs) /\
    (evs = [] \/ evs = [EvExists "web_dashboard/lifecycle_dashboard.html"]).
Proof.
  unfold route.
  repeat (match goal with
          | |- context [if ?b then _ else _] =>
              destruct b; [eexists _, []; rewrite after_nil; split; [reflexivity | by left] |]
          end).
  destruct (_ || _).
  - rewrite (bind_ret _ _ _ _ _ (os_path_exists_run _ w)).
    destruct (negb _); eexists _, [_]; (split; [reflexivity | by right]).
  - eexists _, []. rewrite after_nil. split; [reflexivity | by left].
Qed.

(** One GET: the checks of the alias, the console lines of the base class's
    [log_message] calls, then one response, whose headers went through
    [end_headers] with the rewritten path. *)
Lemma do_GET_run (E : env) (rq : request) (w : world) :
  exists path' evs status buf body,
    fst (route (request_path rq) w) = Ret path' /\
    do_GET E rq w =
      (Ret tt,
       after w (evs ++ [EvResponse status (end_headers (request_version rq) path' buf)
                                   body])) /\
    responses evs = 0%nat.
Proof.
  destruct (route_run (request_path rq) w) as [path' [evs [Hroute Hevs]]].
  unfold do_GET. rewrite (bind_ret _ _ _ _ _ Hroute).
  unfold super_do_GET, get_fs, now. unfold bind at 1. unfold bind at 1.
  set (r := base_do_GET E rq path' (fs (after w evs)) (length (trace (after w evs)))).
  destruct (for_each_log_run E (reply_logs r) (after w evs)) as [logs [Hrun [_ Hall]]].
  rewrite (bind_ret _ _ _ _ _ Hrun).
  exists path', (evs ++ logs), (reply_status r), (reply_headers r), (reply_body r).
  split; [by rewrite Hroute |]. split.
  - unfold emit, after; simpl. by rewrite <- !app_assoc.
  - rewrite responses_app, (prints_no_response _ Hall).
    by destruct Hevs as [-> | ->].
Qed.

(** C3, as stated, fails: the caching header follows the request path as a
    string, not the file that is served.  The request path
    [/index.html?v=.js] names the file [/index.html], an HTML page, and its
    response carries [Cache-Control: public, max-age=3600], the path ending
    with [.js]. *)
Lemma resolved_file_counterexample :
  ~ (forall (version path : string) (buf : list header),
       (forall h, h ∈ cors_headers -> h ∈ end_headers version path buf) /\
       (cache_header ∈ end_headers version path buf <->
        endswith_any (file_part path) asset_extensions = true)).
Proof.
  intros H. destruct (H "HTTP/1.1" "/index.html?v=.js" []) as [_ [Hcache _]].
  assert (Hsent : cache_header ∈ end_headers "HTTP/1.1" "/index.html?v=.js" []).
  { rewrite end_headers_unfold by done. apply list_elem_of_In.
    vm_compute. right; right; right; left. reflexivity. }
  apply Hcache in Hsent. vm_compute in Hsent. discriminate Hsent.
Qed.

(** C3, amended.  For a request of any version but HTTP/0.9, [end_headers]
    sends, after what the base class has buffered, the three cross-origin
    headers, and after them the header [Cache-Control: public, max-age=3600]
    exactly when the request path as [do_GET] has rewritten it, the string
    [self.path] with its query and fragment, ends with [.css], [.js],
    [.svg], [.png] or [.jpg], whatever is then served for it; a path ending
    with [.html] gets no caching header.  For an HTTP/0.9 request
    [end_headers] adds no header.  The response to a GET carries the headers
    [end_headers] sends for the version of the request and the rewritten
    path. *)
Theorem end_headers_cors_and_cache :
  (forall (version path : string) (buf : list header),
     version <> "HTTP/0.9" ->
     exists extra : list header,
       end_headers version path buf = buf ++ cors_headers ++ extra /\
       cors_headers =
         [ ("Access-Control-Allow-Origin", "*");
           ("Access-Control-Allow-Methods", "GET, POST, OPTIONS");
           ("Access-Control-Allow-Headers", "Content-Type") ] /\
       (extra = [("Cache-Control", "public, max-age=3600")] \/ extra = []) /\
       (extra = [("Cache-Control", "public, max-age=3600")] <->
        exists ext pre,
          ext ∈ [".css"; ".js"; ".svg"; ".png"; ".jpg"] /\ path = pre +:+ ext) /\
       ((exists pre, path = pre +:+ ".html") -> extra = [])) /\
  (forall (path : string) (buf : list header), end_headers "HTTP/0.9" path buf = buf) /\
  (forall (E : env) (rq : request) (w : world),
     exists path' evs status buf body,
       fst (route (request_path rq) w) = Ret path' /\
       do_GET E rq w =
         (Ret tt,
          after w (evs ++ [EvResponse status (end_headers (request_version rq) path' buf)
                                      body])) /\
       responses evs = 0%nat).
Proof.
  split; [| split; [apply end_headers_http09 | apply do_GET_run]].
  intros version path buf Hversion.
  exists (if endswith_any path asset_extensions then [cache_header] else []).
  split; [by apply end_headers_unfold |]. split; [reflexivity |].
  pose proof (endswith_any_spec path asset_extensions) as Hspec.
  destruct (endswith_any path asset_extensions) eqn:Hany.
  - split; [by left |]. split.
    + split; [intros _; by apply Hspec | done].
    + intros [pre ->]. by rewrite html_is_no_asset in Hany.
  - split; [by right |]. split; [| done].
    split; [done |]. intros H. apply Hspec in H. discriminate.
Qed.

(** ** The console lines of [log_message] *)

Lemma classify_spec (message : string) :
  (classify message = Success <-> occurs "200" message) /\
  (classify message = NotFound <-> ~ occurs "200" message /\ occurs "404" message) /\
  (classify message = Other <-> ~ occurs "200" message /\ ~ occurs "404" message).
Proof.
  unfold classify.
  destruct (contains "200" message) eqn:H2; destruct (contains "404" message) eqn:H4;
    first [apply contains_occurs in H2 | apply not_contains_occurs in H2];
    first [apply contains_occurs in H4 | apply not_contains_occurs in H4];
    repeat split; try (intros; discriminate); try done; tauto.
Qed.

Lemma pretty_200 : pretty 200 = "200".
Proof. reflexivity. Qed.

Lemma pretty_404 : pretty 404 = "404".
Proof. reflexivity. Qed.

(** In a request line followed by a quote, ["200"] starts where it starts in
    the request line. *)
Lemma startswith_200_quoted (s t : string) :
  startswith (s +:+ dq +:+ t) "200" = startswith s "200".
Proof.
  destruct s as [|c0 [|c1 [|c2 s]]]; reflexivity.
Qed.

Lemma contains_200_quoted (s t : string) :
  contains "200" (s +:+ dq +:+ t) = contains "200" s || contains "200" t.
Proof.
  induction s as [|c s IH].
  - reflexivity.
  - change (String c s +:+ dq +:+ t) with (String c (s +:+ dq +:+ t)).
    change (contains "200" (String c (s +:+ dq +:+ t)))
      with (startswith (String c (s +:+ dq +:+ t)) "200" || contains "200" (s +:+ dq +:+ t)).
    change (String c (s +:+ dq +:+ t)) with (String c s +:+ dq +:+ t).
    rewrite startswith_200_quoted, IH.
    change (contains "200" (String c s))
      with (startswith (String c s) "200" || contains "200" s).
    by rewrite orb_assoc.
Qed.

(** The log line of a 404 holds ["200"] only where the request line does. *)
Lemma contains_200_in_404_line (requestline : string) :
  contains "200" (request_log_message requestline 404) = contains "200" requestline.
Proof.
  unfold request_log_message. rewrite pretty_404.
  change (contains "200" (dq +:+ requestline +:+ dq +:+ " " +:+ "404" +:+ " -"))
    with (contains "200" (requestline +:+ dq +:+ " 404 -")).
  rewrite contains_200_quoted. apply orb_false_r.
Qed.

Lemma string_app_assoc (a b c : string) : (a +:+ b) +:+ c = a +:+ b +:+ c.
Proof.
  induction a as [|x a IH]; [done |].
  change (String x ((a +:+ b) +:+ c) = String x (a +:+ b +:+ c)). by rewrite IH.
Qed.

Lemma occurs_404_in_404_line (requestline : string) :
  occurs "404" (request_log_message requestline 404).
Proof.
  exists (dq +:+ requestline +:+ dq +:+ " "), " -".
  unfold request_log_message. rewrite pretty_404.
  by rewrite !string_app_assoc.
Qed.

Lemma occurs_200_in_200_line (requestline : string) :
  occurs "200" (request_log_message requestline 200).
Proof.
  exists (dq +:+ requestline +:+ dq +:+ " "), " -".
  unfold request_log_message. rewrite pretty_200.
  by rewrite !string_app_assoc.
Qed.

(** C6, as stated, fails: the class is not read off the status.  The
    request line [GET /report2004.html HTTP/1.1] answered with status 404
    gets the mark of [Success], its path containing ["200"], and not that of
    [NotFound]. *)
Lemma class_of_status_counterexample :
  ~ (forall (requestline : string) (code : Z) (w : world),
       log_message demo_env request_log_format (request_log_args requestline code) w =
       (Ret tt,
        after w [EvPrint (log_line (strftime_HMS demo_env (length (trace w)))
                                   (class_of_status code)
                                   (request_log_message requestline code))])).
Proof.
  intros H. specialize (H "GET /report2004.html HTTP/1.1" 404 empty_world).
  vm_compute in H. discriminate H.
Qed.

(** C6, amended.  Each [log_message] call writes exactly one console line,
    with the time stamp, the mark of one class and the message, and changes
    nothing else: the file system and the responses sent are as before.  The
    class is [Success] exactly when the message contains ["200"], [NotFound]
    exactly when it contains ["404"] and not ["200"], [Other] in the
    remaining cases.  So the log line of a response with status 200 is
    [Success], and that of a response with status 404 is [NotFound] when the
    request line does not contain ["200"]. *)
Theorem log_message_one_line (E : env) (format : string) (args : list string) (w : world) :
  exists c : classification,
    let message := percent E format args in
    log_message E format args w =
      (Ret tt, after w [EvPrint (log_line (strftime_HMS E (length (trace w))) c message)]) /\
    (c = Success <-> occurs "200" message) /\
    (c = NotFound <-> ~ occurs "200" message /\ occurs "404" message) /\
    (c = Other <-> ~ occurs "200" message /\ ~ occurs "404" message) /\
    (forall requestline, message = request_log_message requestline 200 -> c = Success) /\
    (forall requestline,
       message = request_log_message requestline 404 ->
       ~ occurs "200" requestline -> c = NotFound) /\
    fs (snd (log_message E format args w)) = fs w /\
    responses (trace (snd (log_message E format args w))) = responses (trace w).
Proof.
  exists (classify (percent E format args)). cbv zeta.
  destruct (classify_spec (percent E format args)) as [HS [HN HO]].
  rewrite log_message_run.
  split; [reflexivity |]. split; [exact HS |]. split; [exact HN |].
  split; [exact HO |]. split; [| split; [| split]].
  - intros requestline Hm. apply HS. rewrite Hm. apply occurs_200_in_200_line.
  - intros requestline Hm Hno. apply HN. rewrite Hm.
    split; [| apply occurs_404_in_404_line].
    apply not_contains_occurs. rewrite contains_200_in_404_line.
    by apply not_contains_occurs.
  - reflexivity.
  - simpl. rewrite responses_app. unfold responses at 2. simpl. lia.
Qed.

(** C10, as stated, fails in its last clause: a line without ["200"] may
    still contain ["404"].  The request line [GET /404.html HTTP/1.1]
    answered with status 204 has a 2xx status other than 200 and no ["200"]
    in its line, and is not marked [Other]. *)
Lemma lacks_200_counterexample :
  ~ (forall (requestline : string) (code : Z) (w : world),
       200 <= code <= 299 -> code <> 200 ->
       ~ occurs "200" (request_log_message requestline code) ->
       log_message demo_env request_log_format (request_log_args requestline code) w =
       (Ret tt,
        after w [EvPrint (log_line (strftime_HMS demo_env (length (trace w)))
                                   Other
                                   (request_log_message requestline code))])).
Proof.
  intros H. specialize (H "GET /404.html HTTP/1.1" 204 empty_world).
  assert (Hrun : ~ occurs "200" (request_log_message "GET /404.html HTTP/1.1" 204))
    by (by apply not_contains_occurs).
  specialize (H ltac:(lia) ltac:(lia) Hrun).
  vm_compute in H. discriminate H.
Qed.

(** C10, amended.  The class of a console line is a function of the
    formatted message alone, decided by substring tests in a fixed order:
    [Success] if ["200"] occurs anywhere in it, otherwise [NotFound] if
    ["404"] occurs anywhere in it, otherwise [Other].  So the line of a 404
    response whose request line contains ["200"] is [Success]; and the line
    of a 2xx response other than 200 that lacks ["200"] is never [Success]:
    it is [NotFound] if it contains ["404"] and [Other] if it does not. *)
Theorem classification_by_substring (E : env) (format : string) (args : list string)
    (w : world) :
  let message := percent E format args in
  log_message E format args w =
    (Ret tt,
     after w [EvPrint (log_line (strftime_HMS E (length (trace w)))
                                (classify message) message)]) /\
  (occurs "200" message -> classify message = Success) /\
  (~ occurs "200" message -> occurs "404" message -> classify message = NotFound) /\
  (~ occurs "200" message -> ~ occurs "404" message -> classify message = Other) /\
  (forall requestline,
     occurs "200" requestline ->
     classify (request_log_message requestline 404) = Success) /\
  (forall requestline code,
     200 <= code <= 299 -> code <> 200 ->
     ~ occurs "200" (request_log_message requestline code) ->
     classify (request_log_message requestline code) <> Success /\
     (occurs "404" (request_log_message requestline code) ->
      classify (request_log_message requestline code) = NotFound) /\
     (~ occurs "404" (request_log_message requestline code) ->
      classify (request_log_message requestline code) = Other)).
Proof.
  cbv zeta. destruct (classify_spec (percent E format args)) as [HS [HN HO]].
  split; [apply log_message_run |].
  split; [tauto |]. split; [tauto |]. split; [tauto |]. split.
  - intros requestline Hreq. apply classify_spec, contains_occurs.
    rewrite contains_200_in_404_line. by apply contains_occurs.
  - intros requestline code _ _ Hno.
    destruct (classify_spec (request_log_message requestline code)) as [HS' [HN' HO']].
    split; [tauto |]. split; [tauto |]. tauto.
Qed.

(** ** The port probe *)

Lemma sock_bind_run (E : env) (port : Z) (w : world) :
  0 <= port <= 65535 ->
  sock_bind E port w =
  if port_free E port then (Ret tt, after w [EvBind port])
  else (Raise (OSError "Address already in use"), after w [EvBind port]).
Proof.
  intros Hport. unfold sock_bind, bind, emit.
  replace ((port <? 0) || (65535 <? port)) with false
    by (symmetry; apply orb_false_iff; split; apply Z.ltb_ge; lia).
  by destruct (port_free E port).
Qed.

Lemma probe_run (E : env) (port : Z) (w : world) :
  0 <= port <= 65535 ->
  probe E port w =
  if port_free E port then (Ret port, after w (probe_events port))
  else (Raise (OSError "Address already in use"), after w (probe_events port)).
Proof.
  intros Hport. unfold probe, with_exit, emit. unfold bind at 1. unfold bind.
  rewrite (sock_bind_run E port _ Hport).
  destruct (port_free E port); unfold after, probe_events; simpl;
    by rewrite <- !app_assoc.
Qed.

(** The loop over [seqZ start n], all of whose ports are valid. *)
Lemma probe_ports_run (E : env) (n : nat) :
  forall (start : Z) (w : world),
    0 <= start -> start + Z.of_nat n <= 65536 ->
    match probe_ports E (seqZ start (Z.of_nat n)) w with
    | (Ret p, w') =>
        start <= p < start + Z.of_nat n /\
        port_free E p = true /\
        (forall q, start <= q < p -> port_free E q = false) /\
        w' = after w (concat (map probe_events (seqZ start (p + 1 - start))))
    | (Raise e, w') =>
        e = RuntimeError "No available ports found" /\
        (forall q, start <= q < start + Z.of_nat n -> port_free E q = false) /\
        w' = after w (concat (map probe_events (seqZ start (Z.of_nat n))))
    | (Blocked, _) => False
    end.
Proof.
  induction n as [|n IH]; intros start w Hlo Hhi.
  - simpl. rewrite after_nil. split; [done |]. split; [intros q Hq; lia | done].
  - rewrite seqZ_cons by lia.
    replace (Z.pred (Z.of_nat (S n))) with (Z.of_nat n) by lia.
    cbn [probe_ports]. unfold try_except.
    rewrite probe_run by lia.
    destruct (port_free E start) eqn:Hfree.
    + split; [lia |]. split; [done |]. split; [intros q Hq; lia |].
      replace (start + 1 - start) with 1 by lia.
      by change (seqZ start 1) with [start].
    + specialize (IH (Z.succ start) (after w (probe_events start))
                     ltac:(lia) ltac:(lia)).
      destruct (probe_ports E (seqZ (Z.succ start) (Z.of_nat n))
                  (after w (probe_events start))) as [[p | e |] w'].
      * destruct IH as [Hp [Hpfree [Hbusy ->]]].
        split; [lia |]. split; [done |]. split.
        -- intros q Hq. destruct (decide (q = start)) as [-> | Hne]; [done |].
           apply Hbusy. lia.
        -- rewrite after_after. f_equal.
           rewrite (seqZ_cons start (p + 1 - start)) by lia. simpl.
           by replace (Z.pred (p + 1 - start)) with (p + 1 - Z.succ start) by lia.
      * destruct IH as [-> [Hbusy ->]]. split; [done |]. split.
        -- intros q Hq. destruct (decide (q = start)) as [-> | Hne]; [done |].
           apply Hbusy. lia.
        -- rewrite after_after. f_equal.
      * done.
Qed.

(** C2, as stated, fails for a start value whose range leaves the valid
    ports: from 65530 with every port taken, the probe of port 65536 raises
    [OverflowError], which [except OSError] does not catch, and the
    [RuntimeError] is never reached. *)
Lemma port_exhausted_counterexample :
  ~ (forall (E : env) (start : Z) (w : world),
       (forall q, start <= q < start + 100 -> fst (sock_bind E q w) <> Ret tt) ->
       fst (find_available_port E start w) = Raise (RuntimeError "No available ports found")).
Proof.
  intros H. specialize (H busy_env 65530 empty_world).
  assert (Hbusy : forall q, 65530 <= q < 65530 + 100 ->
                            fst (sock_bind busy_env q empty_world) <> Ret tt).
  { intros q _. unfold sock_bind, bind, emit; simpl.
    by destruct ((q <? 0) || (65535 <? q)). }
  specialize (H Hbusy). vm_compute in H. discriminate H.
Qed.

(** C2, amended.  For every start value whose hundred ports are valid port
    numbers ([0 <= start] and [start + 100 <= 65536]), [find_available_port]
    probes the ports of [[start, start+100)] in ascending order, each with a
    socket of its own that is closed before the next step, and returns the
    first port whose bind succeeds: the port is in the range, its bind
    succeeds, the bind of every earlier port fails, and the close of the test
    socket is the last thing done.  If no port of the range can be bound it
    raises [RuntimeError("No available ports found")] after probing all
    hundred.  It never waits. *)
Theorem find_available_port_first_free (E : env) (start : Z) (w : world) :
  0 <= start -> start + 100 <= 65536 ->
  match find_available_port E start w with
  | (Ret p, w') =>
      start <= p < start + 100 /\
      (forall w0, fst (sock_bind E p w0) = Ret tt) /\
      (forall q w0, start <= q < p ->
                    fst (sock_bind E q w0) = Raise (OSError "Address already in use")) /\
      w' = after w (concat (map probe_events (py_range start (p + 1))))
  | (Raise e, w') =>
      e = RuntimeError "No available ports found" /\
      (forall q w0, start <= q < start + 100 ->
                    fst (sock_bind E q w0) = Raise (OSError "Address already in use")) /\
      w' = after w (concat (map probe_events (py_range start (start + 100))))
  | (Blocked, _) => False
  end.
Proof.
  intros Hlo Hhi. unfold find_available_port, py_range.
  replace (start + 100 - start) with (Z.of_nat 100) by lia.
  pose proof (probe_ports_run E 100 start w Hlo ltac:(lia)) as Hrun.
  destruct (probe_ports E (seqZ start (Z.of_nat 100)) w) as [[p | e |] w'].
  - destruct Hrun as [Hp [Hfree [Hbusy ->]]].
    split; [lia |]. split; [| split; [| done]].
    + intros w0. rewrite sock_bind_run by lia. by rewrite Hfree.
    + intros q w0 Hq. rewrite sock_bind_run by lia. by rewrite (Hbusy q Hq).
  - destruct Hrun as [-> [Hbusy ->]]. split; [done |]. split; [| done].
    intros q w0 Hq. rewrite sock_bind_run by lia.
    by rewrite (Hbusy q ltac:(lia)).
  - done.
Qed.

Lemma find_available_port_first_free_witness :
  0 <= 8080 /\ 8080 + 100 <= 65536 /\
  match find_available_port demo_env 8080 bare_world with
  | (Ret p, w') =>
      8080 <= p < 8080 + 100 /\
      (forall w0, fst (sock_bind demo_env p w0) = Ret tt) /\
      (forall q w0, 8080 <= q < p ->
                    fst (sock_bind demo_env q w0) = Raise (OSError "Address already in use")) /\
      w' = after bare_world (concat (map probe_events (py_range 8080 (p + 1))))
  | (Raise e, w') =>
      e = RuntimeError "No available ports found" /\
      (forall q w0, 8080 <= q < 8080 + 100 ->
                    fst (sock_bind demo_env q w0) = Raise (OSError "Address already in use")) /\
      w' = after bare_world (concat (map probe_events (py_range 8080 (8080 + 100))))
  | (Blocked, _) => False
  end.
Proof.
  split; [lia |]. split; [lia |].
  apply (find_available_port_first_free demo_env 8080 bare_world); lia.
Defined.

(** ** The landing page *)

Lemma card_links_index_content : card_links index_content = fixed_cards.
Proof. vm_compute. reflexivity. Qed.

Lemma fixed_cards_occur :
  Forall (fun target => occurs (card_anchor target) index_content) fixed_cards.
Proof.
  unfold fixed_cards. repeat constructor; apply contains_occurs; vm_compute; reflexivity.
Qed.

Lemma create_dashboard_index_run (w : world) :
  writable w ->
  create_dashboard_index w =
  (Ret tt,
   World (<["web_dashboard/dashboard_index.html" := File index_content]> (fs w))
         (trace w ++ [EvWrite "web_dashboard/dashboard_index.html"])).
Proof.
  intros [Hdir Hpage]. unfold create_dashboard_index, write_file, get_fs, bind.
  change ("web_dashboard" +:+ "/" +:+ "dashboard_index.html")
    with "web_dashboard/dashboard_index.html".
  rewrite Hdir.
  destruct (fs w !! "web_dashboard/dashboard_index.html") as [[content |] |];
    [reflexivity | done | reflexivity].
Qed.

Lemma create_dashboard_index_fails (w : world) :
  ~ writable w ->
  exists msg, create_dashboard_index w = (Raise (OSError msg), w).
Proof.
  intros Hno. unfold create_dashboard_index, write_file, get_fs, bind.
  change ("web_dashboard" +:+ "/" +:+ "dashboard_index.html")
    with "web_dashboard/dashboard_index.html".
  destruct (fs w !! "web_dashboard") as [[c |] |] eqn:Hdir;
    [by eexists | | by eexists].
  destruct (fs w !! "web_dashboard/dashboard_index.html") as [[c |] |] eqn:Hpage;
    [exfalso; apply Hno; split; congruence | by eexists
    | exfalso; apply Hno; split; congruence].
Qed.

Lemma advertised_after_create (w : world) :
  writable w ->
  advertised (fs (snd (create_dashboard_index w))) = Some fixed_cards.
Proof.
  intros Hw. rewrite (create_dashboard_index_run w Hw). unfold advertised.
  cbn [snd fs]. rewrite lookup_insert_eq. by rewrite card_links_index_content.
Qed.

(** C9.  [create_dashboard_index] writes one constant to
    [web_dashboard/dashboard_index.html]: whatever the file system holds,
    wherever the page can be written the bytes written are those of the
    [index_content] literal, so two invocations write the same bytes; where
    it cannot be written nothing is written.  The literal holds the cards
    linking to [unsafe_ffi_dashboard_v2.html],
    [memory_analysis_dashboard.html], [unsafe_ffi_dashboard.html] and
    [index.html], so the page shows them whether or not those files exist. *)
Theorem index_page_is_constant (w1 w2 : world) :
  writable w1 -> writable w2 ->
  fst (create_dashboard_index w1) = Ret tt /\
  fs (snd (create_dashboard_index w1)) !! "web_dashboard/dashboard_index.html"
    = Some (File index_content) /\
  fs (snd (create_dashboard_index w2)) !! "web_dashboard/dashboard_index.html"
    = fs (snd (create_dashboard_index w1)) !! "web_dashboard/dashboard_index.html" /\
  fs (snd (create_dashboard_index (snd (create_dashboard_index w1))))
    = fs (snd (create_dashboard_index w1)) /\
  advertised (fs (snd (create_dashboard_index w1)))
    = Some [ "unsafe_ffi_dashboard_v2.html"; "memory_analysis_dashboard.html";
             "unsafe_ffi_dashboard.html"; "index.html" ] /\
  Forall (fun target => occurs (card_anchor target) index_content)
         [ "unsafe_ffi_dashboard_v2.html"; "memory_analysis_dashboard.html";
           "unsafe_ffi_dashboard.html"; "index.html" ] /\
  (forall w, ~ writable w -> exists msg, create_dashboard_index w = (Raise (OSError msg), w)).
Proof.
  intros Hw1 Hw2.
  assert (Hw1' : writable (snd (create_dashboard_index w1))).
  { rewrite (create_dashboard_index_run w1 Hw1). destruct Hw1 as [Hdir Hpage].
    split; cbn [snd fs].
    - by rewrite lookup_insert_ne.
    - by rewrite lookup_insert_eq. }
  split; [by rewrite (create_dashboard_index_run w1 Hw1) |].
  split; [rewrite (create_dashboard_index_run w1 Hw1); cbn [snd fs];
          by rewrite lookup_insert_eq |].
  split; [rewrite (create_dashboard_index_run w1 Hw1),
            (create_dashboard_index_run w2 Hw2); cbn [snd fs];
          by rewrite !lookup_insert_eq |].
  split; [rewrite (create_dashboard_index_run _ Hw1'),
            (create_dashboard_index_run w1 Hw1); cbn [snd fs];
          by rewrite insert_insert_eq |].
  split; [exact (advertised_after_create w1 Hw1) |].
  split; [exact fixed_cards_occur | exact create_dashboard_index_fails].
Qed.

Lemma bare_world_writable : writable bare_world.
Proof. split; [reflexivity | by vm_compute]. Qed.

Lemma lifecycle_world_writable : writable lifecycle_world.
Proof. split; [reflexivity | by vm_compute]. Qed.

Lemma index_page_is_constant_witness :
  writable bare_world /\ writable lifecycle_world /\
  fs (snd (create_dashboard_index lifecycle_world)) !! "web_dashboard/dashboard_index.html"
    = fs (snd (create_dashboard_index bare_world)) !! "web_dashboard/dashboard_index.html".
Proof.
  split; [exact bare_world_writable |]. split; [exact lifecycle_world_writable |].
  exact (proj1 (proj2 (proj2
    (index_page_is_constant bare_world lifecycle_world
       bare_world_writable lifecycle_world_writable)))).
Defined.

(** The loop of [list_available_dashboards] returns, and adds to its list
    only files it has found. *)
Lemma list_dashboards_from_run (E : env) (known : list (string * string)) :
  forall (acc : list (string * string * Z)) (w : world),
    exists found evs,
      list_dashboards_from E known acc w = (Ret (acc ++ found), after w evs) /\
      Forall (fun d : string * string * Z =>
                is_Some (fs w !! ("web_dashboard/" +:+ fst (fst d)))) found /\
      Forall (fun e => exists path, e = EvExists path \/ e = EvStat path) evs.
Proof.
  induction known as [|[file_name description] known IH]; intros acc w.
  - exists [], []. rewrite app_nil_r, after_nil. by repeat split.
  - cbn [list_dashboards_from].
    change ("web_dashboard" +:+ "/" +:+ file_name) with ("web_dashboard/" +:+ file_name).
    rewrite (bind_ret _ _ _ _ _ (os_path_exists_run _ w)).
    case_bool_decide as Hpresent.
    + destruct Hpresent as [n Hn].
      assert (Hstat : exists size,
                 stat_size E ("web_dashboard/" +:+ file_name)
                   (after w [EvExists ("web_dashboard/" +:+ file_name)]) =
                 (Ret size,
                  after w [EvExists ("web_dashboard/" +:+ file_name);
                           EvStat ("web_dashboard/" +:+ file_name)])).
      { unfold stat_size, bind, emit, get_fs. cbn [fs after]. rewrite Hn.
        destruct n; eexists; unfold ret, after; cbn [fs trace];
          by rewrite <- app_assoc. }
      destruct Hstat as [size Hstat].
      rewrite (bind_ret _ _ _ _ _ Hstat).
      destruct (IH (acc ++ [(file_name, description, size)])
                   (after w [EvExists ("web_dashboard/" +:+ file_name);
                             EvStat ("web_dashboard/" +:+ file_name)]))
        as [found [evs [Hrun [Hfound Hevs]]]].
      exists ((file_name, description, size) :: found),
             (EvExists ("web_dashboard/" +:+ file_name)
              :: EvStat ("web_dashboard/" +:+ file_name) :: evs).
      rewrite Hrun, after_after, <- app_assoc. split; [done |]. split.
      * constructor; [by exists n | exact Hfound].
      * constructor; [eexists; by left |]. constructor; [eexists; by right | done].
    + destruct (IH acc (after w [EvExists ("web_dashboard/" +:+ file_name)]))
        as [found [evs [Hrun [Hfound Hevs]]]].
      exists found, (EvExists ("web_dashboard/" +:+ file_name) :: evs).
      rewrite Hrun, after_after. split; [done |].
      split; [exact Hfound |]. constructor; [eexists; by left | done].
Qed.




(** ** The landing page is written once *)

Lemma ensure_index_page_present (w : world) :
  is_Some (fs w !! "web_dashboard/dashboard_index.html") ->
  ensure_index_page w =
  (Ret tt, after w [EvExists "web_dashboard/dashboard_index.html"]).
Proof.
  intros Hpresent. unfold ensure_index_page.
  rewrite (bind_ret _ _ _ _ _ (os_path_exists_run _ w)).
  by rewrite bool_decide_eq_true_2.
Qed.

(** C5.  Where [dashboard_index.html] exists, the step of [start_server]
    that ensures the landing page takes no action: it returns having only
    asked whether the file exists, with no write and the file system as it
    was.  So when the file exists after a first call, a second call leaves
    the file system, and with it the bytes of the file, unchanged. *)
Theorem ensure_index_page_idempotent (w : world) :
  is_Some (fs (snd (ensure_index_page w)) !! "web_dashboard/dashboard_index.html") ->
  ensure_index_page (snd (ensure_index_page w)) =
    (Ret tt, after (snd (ensure_index_page w))
                   [EvExists "web_dashboard/dashboard_index.html"]) /\
  fs (snd (ensure_index_page (snd (ensure_index_page w)))) = fs (snd (ensure_index_page w)) /\
  (forall w0 : world,
     is_Some (fs w0 !! "web_dashboard/dashboard_index.html") ->
     ensure_index_page w0 = (Ret tt, after w0 [EvExists "web_dashboard/dashboard_index.html"]) /\
     fs (snd (ensure_index_page w0)) = fs w0).
Proof.
  intros Hpresent.
  split; [exact (ensure_index_page_present _ Hpresent) |].
  split; [by rewrite (ensure_index_page_present _ Hpresent) |].
  intros w0 H0. by rewrite (ensure_index_page_present _ H0).
Qed.

Lemma ensure_index_page_idempotent_witness :
  is_Some (fs (snd (ensure_index_page bare_world)) !! "web_dashboard/dashboard_index.html") /\
  fs (snd (ensure_index_page (snd (ensure_index_page bare_world))))
    = fs (snd (ensure_index_page bare_world)).
Proof.
  assert (Hpresent : is_Some (fs (snd (ensure_index_page bare_world))
                                !! "web_dashboard/dashboard_index.html")).
  { exists (File index_content). vm_compute. reflexivity. }
  split; [exact Hpresent |].
  exact (proj1 (proj2 (ensure_index_page_idempotent bare_world Hpresent))).
Defined.

(** ** Start-up without the root directory *)

(** C7.  When [web_dashboard] does not exist, the script asks for it, prints
    its two error lines and ends with [sys.exit(1)]: the process status is
    1, and nothing else has happened: no socket was created, bound or
    listened on, no file was written, no server was started. *)
Theorem missing_root_exits (E : env) (inbox : list incoming) (port : Z)
    (no_browser : bool) (w : world) :
  fs w !! "web_dashboard" = None ->
  main E inbox port no_browser w =
    (Raise (SystemExit 1),
     after w [ EvExists "web_dashboard";
               EvPrint "❌ Error: web_dashboard directory not found!";
               EvPrint "   Make sure you're running this script from the project root." ]) /\
  exit_code (fst (main E inbox port no_browser w)) = Some 1 /\
  filter is_socket_event (trace (snd (main E inbox port no_browser w)))
    = filter is_socket_event (trace w) /\
  fs (snd (main E inbox port no_browser w)) = fs w.
Proof.
  intros Hroot.
  assert (Hrun : main E inbox port no_browser w =
    (Raise (SystemExit 1),
     after w [ EvExists "web_dashboard";
               EvPrint "❌ Error: web_dashboard directory not found!";
               EvPrint "   Make sure you're running this script from the project root." ])).
  { unfold main, start_server. apply bind_raise. unfold startup.
    rewrite (bind_ret _ _ _ _ _ (os_path_exists_run _ w)).
    rewrite bool_decide_eq_false_2 by (rewrite Hroot; by intros [n Hn]).
    apply bind_raise. unfold print, sys_exit, raise, emit, bind, after; simpl.
    by rewrite <- !app_assoc. }
  rewrite Hrun. split; [done |]. split; [done |]. split; [| done].
  cbn [snd trace after]. rewrite filter_app. simpl. by rewrite app_nil_r.
Qed.

Lemma missing_root_exits_witness :
  fs empty_world !! "web_dashboard" = None /\
  exit_code (fst (main demo_env [InGET "/"] 8080 false empty_world)) = Some 1.
Proof.
  split; [reflexivity |].
  exact (proj1 (proj2 (missing_root_exits demo_env [InGET "/"] 8080 false empty_world
                         eq_refl))).
Defined.

(** ** The serving loop and the interrupt *)

Section Serving.

Variable E : env.

Lemma quiet_print (text : string) : quiet (print text).
Proof. intros w. by exists [EvPrint text]. Qed.

Lemma quiet_ret : quiet (ret tt).
Proof. intros w. exists []. by rewrite after_nil. Qed.

Lemma quiet_thread (url : string) : quiet (emit (EvThread url)).
Proof. intros w. by exists [EvThread url]. Qed.

Lemma quiet_if (b : bool) (m m' : M unit) :
  quiet m -> quiet m' -> quiet (if b then m else m').
Proof. by destruct b. Qed.

Lemma quiet_for_each {A : Type} (f : A -> M unit) (xs : list A) :
  (forall x, quiet (f x)) -> quiet (for_each f xs).
Proof.
  intros Hf. induction xs as [|x xs IH]; [apply quiet_ret |].
  intros w. simpl. destruct (Hf x w) as [evs [Hrun Hevs]].
  rewrite (bind_ret _ _ _ _ _ Hrun).
  destruct (IH (after w evs)) as [evs' [Hrun' Hevs']].
  exists (evs ++ evs'). rewrite Hrun', after_after, responses_app. split; [done | lia].
Qed.

Lemma leads_serve : leads E (fun inbox => serve_forever E inbox).
Proof. intros w. exists []. rewrite after_nil. by split. Qed.

Lemma leads_after (m : M unit) (k : list incoming -> M unit) :
  quiet m -> leads E k -> leads E (fun inbox => m >> k inbox).
Proof.
  intros Hm Hk w. destruct (Hm w) as [evs [Hrun Hevs]].
  destruct (Hk (after w evs)) as [evs' [Hevs' Hrun']].
  exists (evs ++ evs'). rewrite responses_app. split; [lia |].
  intros inbox. rewrite (bind_ret _ _ _ _ _ Hrun), Hrun'. by rewrite after_after.
Qed.

(** The banner of [serve_block] is printed, the thread started, and the
    serving loop entered. *)
Lemma serve_block_leads (data : data_status) (dashboards : list (string * string * Z))
    (port : Z) (auto_open : bool) :
  leads E (fun inbox => serve_block E inbox data dashboards port auto_open).
Proof.
  unfold serve_block.
  repeat (apply leads_after;
          [first [ apply quiet_print
                 | apply quiet_if; [first [apply quiet_print | apply quiet_thread]
                                   | apply quiet_ret]
                 | apply quiet_for_each; intros [[file_name description] size];
                   apply quiet_print ] |]).
  apply leads_serve.
Qed.

(** The loop serves the requests that arrive before the interrupt, one
    response each, and leaves with [KeyboardInterrupt]; what would arrive
    later plays no part. *)
Lemma serve_forever_interrupt (reqs : list request) (later : list incoming) :
  forall w, exists evs,
    serve_forever E (map InRequest reqs ++ InInterrupt :: later) w
      = (Raise KeyboardInterrupt, after w evs) /\
    serve_forever E (map InRequest reqs ++ [InInterrupt]) w
      = (Raise KeyboardInterrupt, after w evs) /\
    responses evs = length reqs.
Proof.
  induction reqs as [|path reqs IH]; intros w.
  - exists []. rewrite after_nil. by repeat split.
  - destruct (do_GET_run E path w)
      as [path' [evs [status [buf [body [_ [Hrun Hevs]]]]]]].
    set (sent := EvResponse status (end_headers (request_version path) path' buf) body)
      in *.
    destruct (IH (after w (evs ++ [sent]))) as [evs' [Hlater [Hnone Hcount]]].
    exists ((evs ++ [sent]) ++ evs').
    cbn [map app serve_forever].
    rewrite !(bind_ret _ _ _ _ _ Hrun), Hlater, Hnone, after_after.
    split; [done |]. split; [done |].
    rewrite !responses_app, Hevs, Hcount. reflexivity.
Qed.

End Serving.

(** C8.  Once start-up has found its port and the server listens, an
    interrupt that arrives while the loop serves makes the loop leave: the
    requests that arrived before it have been answered, one response each,
    the listening socket is closed, the two lines of the shutdown notice are
    printed, and [main] returns, so the process status is 0.  What would
    have arrived after the interrupt plays no part: no such request is
    answered. *)
Theorem interrupt_stops_server (E : env) (reqs : list request) (later : list incoming)
    (port : Z) (no_browser : bool) (w : world)
    (data : data_status) (dashboards : list (string * string * Z)) (p : Z) :
  fst (startup E port w) = Ret (data, dashboards, p) ->
  listen_ok E p = true ->
  exists evs : list event,
    main E (map InRequest reqs ++ InInterrupt :: later) port no_browser w =
      (Ret tt,
       after (snd (startup E port w))
         (EvListen p :: evs ++
          [ EvServerClose;
            EvPrint (nl +:+ "👋 Server stopped by user");
            EvPrint "   Thanks for using the Memory Analysis Dashboard!" ])) /\
    exit_code (fst (main E (map InRequest reqs ++ InInterrupt :: later) port no_browser w))
      = Some 0 /\
    responses evs = length reqs /\
    main E (map InRequest reqs ++ InInterrupt :: later) port no_browser w =
      main E (map InRequest reqs ++ [InInterrupt]) port no_browser w.
Proof.
  intros Hstart Hlisten.
  destruct (startup E port w) as [o w1] eqn:Hrun. simpl in Hstart. subst o.
  destruct (serve_block_leads E data dashboards p (negb no_browser)
              (after w1 [EvListen p])) as [banner [Hbanner Hblock]].
  destruct (serve_forever_interrupt E reqs later (after (after w1 [EvListen p]) banner))
    as [served [Hlater [Hnone Hcount]]].
  assert (Hmain : forall inbox,
            serve_forever E inbox (after (after w1 [EvListen p]) banner)
              = (Raise KeyboardInterrupt,
                 after (after (after w1 [EvListen p]) banner) served) ->
            main E inbox port no_browser w =
              (Ret tt,
               after w1
                 (EvListen p :: (banner ++ served) ++
                  [ EvServerClose;
                    EvPrint (nl +:+ "👋 Server stopped by user");
                    EvPrint "   Thanks for using the Memory Analysis Dashboard!" ]))).
  { intros inbox Hserve. unfold main, start_server.
    rewrite (bind_ret _ _ _ _ _ Hrun). unfold try_except, tcp_server.
    rewrite Hlisten. unfold bind at 1. unfold emit at 1.
    fold (after w1 [EvListen p]). unfold with_exit.
    rewrite Hblock, Hserve.
    unfold print, emit, bind, after; simpl. by rewrite <- !app_assoc. }
  exists (banner ++ served).
  rewrite (Hmain _ Hlater), (Hmain _ Hnone).
  split; [done |]. split; [done |]. split; [| done].
  rewrite responses_app. lia.
Qed.

Lemma interrupt_stops_server_witness :
  fst (startup demo_env 8080 bare_world) =
    Ret (DataStatus false 0 None,
         [("dashboard_index.html", "🏠 Main Dashboard Index", 10808)], 8082) /\
  listen_ok demo_env 8082 = true /\
  exit_code (fst (main demo_env
                       (map InRequest
                            [plain_get "/"; Request "GET /lifecycle" "HTTP/0.9" "/lifecycle" []]
                        ++ InInterrupt :: [InGET "/unsafe"])
                       8080 false bare_world)) = Some 0.
Proof.
  assert (Hstart : fst (startup demo_env 8080 bare_world) =
            Ret (DataStatus false 0 None,
                 [("dashboard_index.html", "🏠 Main Dashboard Index", 10808)], 8082))
    by (vm_compute; reflexivity).
  split; [exact Hstart |]. split; [reflexivity |].
  destruct (interrupt_stops_server demo_env
              [plain_get "/"; Request "GET /lifecycle" "HTTP/0.9" "/lifecycle" []]
              [InGET "/unsafe"]
              8080 false bare_world _ _ _ Hstart eq_refl) as [evs [_ [Hexit _]]].
  exact Hexit.
Defined.

(** * More of the script *)

(** ** What every run respects *)

Section Respects.

Variable R : world -> world -> Prop.
Variable allowed : event -> Prop.
Hypothesis R_refl : forall w, R w w.
Hypothesis R_trans : forall w1 w2 w3, R w1 w2 -> R w2 w3 -> R w1 w3.
Hypothesis R_emit : forall e w, allowed e -> R w (after w [e]).

Lemma respects_ret {A : Type} (a : A) : respects R (ret a).
Proof. intros w. apply R_refl. Qed.

Lemma respects_raise {A : Type} (e : exn) : respects R (@raise A e).
Proof. intros w. apply R_refl. Qed.

Lemma respects_blocked {A : Type} : respects R (@blocked A).
Proof. intros w. apply R_refl. Qed.

Lemma respects_get_fs : respects R get_fs.
Proof. intros w. apply R_refl. Qed.

Lemma respects_emit (e : event) : allowed e -> respects R (emit e).
Proof. intros He w. by apply R_emit. Qed.

Lemma respects_bind {A B : Type} (m : M A) (k : A -> M B) :
  respects R m -> (forall a, respects R (k a)) -> respects R (bind m k).
Proof.
  intros Hm Hk w. unfold bind. specialize (Hm w).
  destruct (m w) as [[a | e |] w1]; simpl in Hm; [| done | done].
  exact (R_trans _ _ _ Hm (Hk a w1)).
Qed.

Lemma respects_try_except {A : Type} (m : M A) (h : exn -> option (M A)) :
  respects R m -> (forall e k, h e = Some k -> respects R k) ->
  respects R (try_except m h).
Proof.
  intros Hm Hh w. unfold try_except. specialize (Hm w).
  destruct (m w) as [[a | e |] w1]; simpl in Hm; [done | | done].
  destruct (h e) as [k |] eqn:He; [| done].
  exact (R_trans _ _ _ Hm (Hh e k He w1)).
Qed.

Lemma respects_with_exit {A : Type} (m : M A) (exit : event) :
  respects R m -> allowed exit -> respects R (with_exit m exit).
Proof.
  intros Hm He w. unfold with_exit. specialize (Hm w).
  destruct (m w) as [[a | e |] w1]; simpl in *; [| | done];
    exact (R_trans _ _ _ Hm (R_emit exit w1 He)).
Qed.

Lemma respects_if {A : Type} (b : bool) (m m' : M A) :
  respects R m -> respects R m' -> respects R (if b then m else m').
Proof. by destruct b. Qed.

Lemma respects_for_each {A : Type} (f : A -> M unit) (xs : list A) :
  (forall x, respects R (f x)) -> respects R (for_each f xs).
Proof.
  intros Hf. induction xs as [|x xs IH]; [apply respects_ret |].
  simpl. apply respects_bind; [apply Hf | intros _; exact IH].
Qed.

Lemma respects_print (text : string) : allowed (EvPrint text) -> respects R (print text).
Proof. apply respects_emit. Qed.

Lemma respects_os_path_exists (path : string) :
  allowed (EvExists path) -> respects R (os_path_exists path).
Proof.
  intros He. unfold os_path_exists.
  apply respects_bind; [by apply respects_emit | intros _].
  apply respects_bind; [apply respects_get_fs | intros files; apply respects_ret].
Qed.

End Respects.

Section RespectsProgram.

Variable E : env.
Variable R : world -> world -> Prop.
Variable allowed : event -> Prop.
Hypothesis R_refl : forall w, R w w.
Hypothesis R_trans : forall w1 w2 w3, R w1 w2 -> R w2 w3 -> R w1 w3.
Hypothesis R_emit : forall e w, allowed e -> R w (after w [e]).

Ltac respects_step :=
  lazymatch goal with
  | |- respects _ (ret _) => apply (respects_ret R R_refl)
  | |- respects _ (raise _) => apply (respects_raise R R_refl)
  | |- respects _ (sys_exit _) => apply (respects_raise R R_refl)
  | |- respects _ blocked => apply (respects_blocked R R_refl)
  | |- respects _ get_fs => apply (respects_get_fs R R_refl)
  | |- respects _ (print _) => apply (respects_print R allowed R_emit)
  | |- respects _ (os_path_exists _) =>
      apply (respects_os_path_exists R allowed R_refl R_trans R_emit)
  | |- respects _ (emit _) => apply (respects_emit R allowed R_emit)
  | |- respects _ (with_exit _ _) => apply (respects_with_exit R allowed R_trans R_emit)
  | |- respects _ (for_each _ _) => apply (respects_for_each R R_refl R_trans); intros ?
  | |- respects _ (bind _ _) => apply (respects_bind R R_trans); [| intros ?]
  | |- respects _ (if _ then _ else _) => apply respects_if
  end.

(** *** The handler *)

Lemma respects_log_message (format : string) (args : list string) :
  (forall text, allowed (EvPrint text)) -> respects R (log_message E format args).
Proof.
  intros Hprint. unfold log_message.
  apply (respects_bind R R_trans); [intros w; apply R_refl | intros timestamp].
  repeat respects_step; apply Hprint.
Qed.

Lemma respects_route (path : string) :
  (forall p, allowed (EvExists p)) -> respects R (route path).
Proof. intros Hexists. unfold route. repeat respects_step. apply Hexists. Qed.

Lemma respects_do_GET (rq : request) :
  (forall e, serving_event false e -> allowed e) -> respects R (do_GET E rq).
Proof.
  intros Hserve. unfold do_GET, super_do_GET.
  apply (respects_bind R R_trans);
    [apply respects_route; intros p; by apply Hserve | intros path'].
  apply (respects_bind R R_trans); [apply (respects_get_fs R R_refl) | intros files].
  apply (respects_bind R R_trans); [intros w; apply R_refl | intros clock].
  apply (respects_bind R R_trans).
  - apply (respects_for_each R R_refl R_trans). intros l.
    apply respects_log_message. intros text. by apply Hserve.
  - intros _. apply (respects_emit R allowed R_emit). by apply Hserve.
Qed.

Lemma respects_serve_forever (inbox : list incoming) :
  (forall e, serving_event false e -> allowed e) -> respects R (serve_forever E inbox).
Proof.
  intros Hserve. induction inbox as [|[path |] inbox IH]; simpl.
  - respects_step.
  - apply (respects_bind R R_trans); [by apply respects_do_GET | intros _; exact IH].
  - respects_step.
Qed.

(** *** Start-up *)

Hypothesis allowed_startup : forall e, startup_event e -> allowed e.
Hypothesis R_ensure : respects R ensure_index_page.

Lemma respects_stat_size (path : string) : respects R (stat_size E path).
Proof.
  unfold stat_size. repeat respects_step; [by apply allowed_startup |].
  destruct (_ !! path) as [[content |] |]; respects_step.
Qed.

Lemma respects_stat_mtime_of (path : string) : respects R (stat_mtime_of E path).
Proof.
  unfold stat_mtime_of. repeat respects_step; [by apply allowed_startup |].
  destruct (_ !! path) as [n |]; respects_step.
Qed.

Lemma respects_check_data_files : respects R (check_data_files E).
Proof.
  unfold check_data_files.
  repeat first [ apply respects_stat_size | apply respects_stat_mtime_of
               | respects_step ];
    by apply allowed_startup.
Qed.

Lemma respects_probe_ports (ports : list Z) : respects R (probe_ports E ports).
Proof.
  induction ports as [|port ports IH]; simpl; [respects_step |].
  apply (respects_try_except R R_trans).
  - unfold probe, sock_bind. repeat respects_step; by apply allowed_startup.
  - intros [code | msg | msg | msg |] k Hk; simplify_eq. exact IH.
Qed.

Lemma respects_list_dashboards_from (known : list (string * string))
    (acc : list (string * string * Z)) :
  respects R (list_dashboards_from E known acc).
Proof.
  revert acc. induction known as [|[file_name description] known IH]; intros acc; simpl.
  - respects_step.
  - apply (respects_bind R R_trans).
    + apply (respects_os_path_exists R allowed R_refl R_trans R_emit).
      by apply allowed_startup.
    + intros [|]; [| apply IH].
      apply (respects_bind R R_trans); [apply respects_stat_size | intros size; apply IH].
Qed.

Lemma respects_startup (port : Z) : respects R (startup E port).
Proof.
  unfold startup.
  apply (respects_bind R R_trans);
    [apply (respects_os_path_exists R allowed R_refl R_trans R_emit);
     by apply allowed_startup | intros root].
  apply (respects_bind R R_trans);
    [unfold sys_exit; repeat respects_step; by apply allowed_startup | intros _].
  apply (respects_bind R R_trans); [exact R_ensure | intros _].
  apply (respects_bind R R_trans); [apply respects_check_data_files | intros data].
  apply (respects_bind R R_trans);
    [apply respects_list_dashboards_from | intros dashboards].
  apply (respects_bind R R_trans); [| intros p; respects_step].
  apply (respects_try_except R R_trans); [apply respects_probe_ports |].
  intros [code | msg | msg | msg |] k Hk; simplify_eq.
  unfold sys_exit. repeat respects_step. by apply allowed_startup.
Qed.

(** *** The whole of [start_server] *)

Lemma respects_serve_block (inbox : list incoming) (data : data_status)
    (dashboards : list (string * string * Z)) (port : Z) (auto_open : bool) :
  (forall e, serving_event auto_open e -> allowed e) ->
  respects R (serve_block E inbox data dashboards port auto_open).
Proof.
  intros Hserve.
  assert (Hfalse : forall e, serving_event false e -> allowed e).
  { intros e He. apply Hserve. by destruct e. }
  unfold serve_block.
  repeat first [ apply respects_serve_forever; exact Hfalse
               | apply (respects_print R allowed R_emit); by apply Hserve
               | lazymatch goal with
                 | |- respects _ (if auto_open then _ else _) =>
                     destruct auto_open;
                     [apply (respects_emit R allowed R_emit); by apply Hserve
                     | apply (respects_ret R R_refl)]
                 end
               | respects_step ].
  match goal with d : (string * string * Z)%type |- _ =>
    destruct d as [[file_name description] size] end.
  apply (respects_print R allowed R_emit). by apply Hserve.
Qed.

Lemma respects_start_server (inbox : list incoming) (port : Z) (auto_open : bool) :
  (forall e, serving_event auto_open e -> allowed e) ->
  respects R (start_server E inbox port auto_open).
Proof.
  intros Hserve. unfold start_server.
  apply (respects_bind R R_trans); [apply respects_startup | intros [[data dashboards] p]].
  apply (respects_try_except R R_trans).
  - apply (respects_bind R R_trans).
    + unfold tcp_server. destruct (listen_ok E p); [| respects_step].
      apply (respects_emit R allowed R_emit). by apply Hserve.
    + intros _. apply (respects_with_exit R allowed R_trans R_emit);
        [by apply respects_serve_block | by apply Hserve].
  - intros [code | msg | msg | msg |] k Hk; simplify_eq;
      unfold sys_exit; repeat respects_step; by apply Hserve.
Qed.

End RespectsProgram.

(** ** The landing page when it is missing *)

Lemma ensure_index_page_created (w : world) :
  fs w !! "web_dashboard/dashboard_index.html" = None ->
  fs w !! "web_dashboard" = Some Dir ->
  ensure_index_page w =
  (Ret tt,
   World (<["web_dashboard/dashboard_index.html" := File index_content]> (fs w))
         (trace w ++ [ EvExists "web_dashboard/dashboard_index.html";
                       EvPrint "📝 Creating enhanced dashboard index...";
                       EvWrite "web_dashboard/dashboard_index.html" ])).
Proof.
  intros Hpage Hroot. unfold ensure_index_page.
  rewrite (bind_ret _ _ _ _ _ (os_path_exists_run _ w)).
  rewrite bool_decide_eq_false_2 by (rewrite Hpage; by intros [n Hn]).
  cbn [negb]. unfold print, emit. unfold bind at 1.
  rewrite create_dashboard_index_run.
  - cbn [fs trace after]. by rewrite <- !app_assoc.
  - split; cbn [fs after]; [done | by rewrite Hpage].
Qed.

Lemma ensure_index_page_refused (w : world) :
  fs w !! "web_dashboard/dashboard_index.html" = None ->
  fs w !! "web_dashboard" <> Some Dir ->
  exists msg,
    ensure_index_page w =
    (Raise (OSError msg),
     after w [ EvExists "web_dashboard/dashboard_index.html";
               EvPrint "📝 Creating enhanced dashboard index..." ]).
Proof.
  intros Hpage Hroot. unfold ensure_index_page.
  rewrite (bind_ret _ _ _ _ _ (os_path_exists_run _ w)).
  rewrite bool_decide_eq_false_2 by (rewrite Hpage; by intros [n Hn]).
  cbn [negb]. unfold print, emit. unfold bind at 1.
  destruct (create_dashboard_index_fails
              (World (fs (after w [EvExists "web_dashboard/dashboard_index.html"]))
                     (trace (after w [EvExists "web_dashboard/dashboard_index.html"])
                      ++ [EvPrint "📝 Creating enhanced dashboard index..."])))
    as [msg Hfail].
  { intros [Hdir _]. by apply Hroot. }
  exists msg. rewrite Hfail. unfold after; cbn [fs trace]. by rewrite <- !app_assoc.
Qed.

(** The three ways [ensure_index_page] can go. *)
Lemma ensure_index_page_cases (w : world) :
  ensure_index_page w = (Ret tt, after w [EvExists "web_dashboard/dashboard_index.html"]) /\
    is_Some (fs w !! "web_dashboard/dashboard_index.html")
  \/
  ensure_index_page w =
    (Ret tt,
     World (<["web_dashboard/dashboard_index.html" := File index_content]> (fs w))
           (trace w ++ [ EvExists "web_dashboard/dashboard_index.html";
                         EvPrint "📝 Creating enhanced dashboard index...";
                         EvWrite "web_dashboard/dashboard_index.html" ])) /\
    fs w !! "web_dashboard/dashboard_index.html" = None
  \/
  (exists msg,
     ensure_index_page w =
     (Raise (OSError msg),
      after w [ EvExists "web_dashboard/dashboard_index.html";
                EvPrint "📝 Creating enhanced dashboard index..." ])) /\
    fs w !! "web_dashboard/dashboard_index.html" = None.
Proof.
  destruct (fs w !! "web_dashboard/dashboard_index.html") as [n |] eqn:Hpage.
  - left. split; [| by exists n]. apply ensure_index_page_present.
    rewrite Hpage. by exists n.
  - right. destruct (fs w !! "web_dashboard") as [[content |] |] eqn:Hroot.
    + right. split; [apply ensure_index_page_refused; congruence | done].
    + left. split; [by apply ensure_index_page_created | done].
    + right. split; [apply ensure_index_page_refused; congruence | done].
Qed.

(** ** The files a run leaves alone *)

Lemma keeps_files_refl (w : world) : keeps_files w w.
Proof. by split. Qed.

Lemma keeps_files_trans (w1 w2 w3 : world) :
  keeps_files w1 w2 -> keeps_files w2 w3 -> keeps_files w1 w3.
Proof.
  intros [Hother12 Hall12] [Hother23 Hall23]. split.
  - intros path Hpath. by rewrite Hother23, Hother12.
  - intros Hpage. specialize (Hall12 Hpage). rewrite <- Hall12 in Hpage.
    by rewrite (Hall23 Hpage).
Qed.

Lemma keeps_files_emit (e : event) (w : world) : True -> keeps_files w (after w [e]).
Proof. by split. Qed.

Lemma keeps_files_ensure : respects keeps_files ensure_index_page.
Proof.
  intros w.
  destruct (ensure_index_page_cases w)
    as [[-> Hpage] | [[-> Hpage] | [[msg ->] Hpage]]]; cbn [snd].
  - by split.
  - split; cbn [fs].
    + intros path Hpath. by rewrite lookup_insert_ne.
    + rewrite Hpage. by intros [n Hn].
  - by split.
Qed.

(** X10.  Whatever the environment, the arrivals and the start port, a run
    of [main] leaves every path other than the landing page with what it
    held; and when the landing page was there at the start, it leaves the
    whole file system as it was. *)
Theorem main_keeps_files (E : env) (inbox : list incoming) (port : Z)
    (no_browser : bool) (w : world) :
  (forall path, path <> "web_dashboard/dashboard_index.html" ->
     fs (snd (main E inbox port no_browser w)) !! path = fs w !! path) /\
  (is_Some (fs w !! "web_dashboard/dashboard_index.html") ->
     fs (snd (main E inbox port no_browser w)) = fs w).
Proof.
  exact (respects_start_server E keeps_files (fun _ => True)
           keeps_files_refl keeps_files_trans keeps_files_emit
           (fun _ _ => I) keeps_files_ensure
           inbox port (negb no_browser) (fun _ _ => I) w).
Qed.

(** ** The events a run adds *)

Lemma adds_only_refl (P : event -> Prop) (w : world) : adds_only P w w.
Proof. exists []. by rewrite app_nil_r. Qed.

Lemma adds_only_trans (P : event -> Prop) (w1 w2 w3 : world) :
  adds_only P w1 w2 -> adds_only P w2 w3 -> adds_only P w1 w3.
Proof.
  intros [evs [H12 Hevs]] [evs' [H23 Hevs']]. exists (evs ++ evs').
  rewrite H23, H12, app_assoc. split; [done | by apply Forall_app].
Qed.

Lemma adds_only_emit (P : event -> Prop) (e : event) (w : world) :
  P e -> adds_only P w (after w [e]).
Proof. intros He. exists [e]. split; [done | by constructor]. Qed.

Lemma adds_only_ensure (P : event -> Prop) :
  (forall e, startup_event e -> P e) ->
  P (EvWrite "web_dashboard/dashboard_index.html") ->
  respects (adds_only P) ensure_index_page.
Proof.
  intros Hstart Hwrite w.
  destruct (ensure_index_page_cases w)
    as [[-> _] | [[-> _] | [[msg ->] _]]]; cbn [snd];
    eexists; (split; [reflexivity |]); repeat constructor;
    first [exact Hwrite | by apply Hstart].
Qed.

(** X11.  With [--no-browser] no run of [main] starts the browser thread:
    none of the events it adds to the trace is the start of a thread. *)
Theorem no_browser_no_thread (E : env) (inbox : list incoming) (port : Z) (w : world) :
  exists evs,
    trace (snd (main E inbox port true w)) = trace w ++ evs /\
    Forall (fun e => is_thread e = false) evs.
Proof.
  apply (respects_start_server E (adds_only (fun e => is_thread e = false))
           (fun e => is_thread e = false)
           (adds_only_refl _) (adds_only_trans _) (adds_only_emit _)).
  - by intros [].
  - apply adds_only_ensure; [by intros [] | done].
  - by intros [].
Qed.

(** ** The exceptions a step lets through *)

Lemma raises_only_ret {A : Type} (P : exn -> Prop) (a : A) : raises_only P (ret a).
Proof. by intros w. Qed.

Lemma raises_only_raise {A : Type} (P : exn -> Prop) (e : exn) :
  P e -> raises_only P (@raise A e).
Proof. by intros He w. Qed.

Lemma raises_only_emit (P : exn -> Prop) (e : event) : raises_only P (emit e).
Proof. by intros w. Qed.

Lemma raises_only_bind {A B : Type} (P : exn -> Prop) (m : M A) (k : A -> M B) :
  raises_only P m -> (forall a, raises_only P (k a)) -> raises_only P (bind m k).
Proof.
  intros Hm Hk w. unfold bind. specialize (Hm w).
  destruct (m w) as [[a | e |] w1]; simpl in Hm; [apply Hk | done | done].
Qed.

Lemma raises_only_weaken {A : Type} (P Q : exn -> Prop) (m : M A) :
  (forall e, P e -> Q e) -> raises_only P m -> raises_only Q m.
Proof.
  intros HPQ Hm w. specialize (Hm w).
  destruct (fst (m w)) as [a | e |]; [done | by apply HPQ | done].
Qed.

Lemma raises_only_try_except {A : Type} (P Q : exn -> Prop) (m : M A)
    (h : exn -> option (M A)) :
  raises_only Q m ->
  (forall e, Q e -> match h e with
                    | Some k => raises_only P k
                    | None => P e
                    end) ->
  raises_only P (try_except m h).
Proof.
  intros Hm Hh w. unfold try_except. specialize (Hm w).
  destruct (m w) as [[a | e |] w1]; simpl in Hm; [done | | done].
  specialize (Hh e Hm). destruct (h e) as [k |]; [apply Hh | done].
Qed.

Lemma raises_only_with_exit {A : Type} (P : exn -> Prop) (m : M A) (exit : event) :
  raises_only P m -> raises_only P (with_exit m exit).
Proof.
  intros Hm w. unfold with_exit. specialize (Hm w).
  by destruct (m w) as [[a | e |] w1].
Qed.

Lemma raises_only_os_path_exists (P : exn -> Prop) (path : string) :
  raises_only P (os_path_exists path).
Proof. by intros w. Qed.

Section Outcomes.

Variable E : env.

Lemma raises_only_stat_size (path : string) :
  raises_only (fun e => exists msg, e = OSError msg) (stat_size E path).
Proof.
  intros w. unfold stat_size, bind, emit, get_fs. cbn [fs].
  destruct (fs w !! path) as [[content |] |]; cbn; [done | done | by eexists].
Qed.

Lemma raises_only_stat_mtime_of (path : string) :
  raises_only (fun e => exists msg, e = OSError msg) (stat_mtime_of E path).
Proof.
  intros w. unfold stat_mtime_of, bind, emit, get_fs. cbn [fs].
  destruct (fs w !! path) as [n |]; cbn; [done | by eexists].
Qed.

Lemma raises_only_check_data_files :
  raises_only (fun e => exists msg, e = OSError msg) (check_data_files E).
Proof.
  unfold check_data_files.
  apply raises_only_bind; [apply raises_only_os_path_exists | intros present].
  apply raises_only_bind; [apply raises_only_os_path_exists | intros present'].
  destruct present'.
  - apply raises_only_bind; [apply raises_only_stat_size | intros size].
    apply raises_only_bind; [apply raises_only_stat_mtime_of | intros mtime].
    apply raises_only_ret.
  - unfold print.
    repeat (apply raises_only_bind; [apply raises_only_emit | intros _]).
    apply raises_only_ret.
Qed.

Lemma raises_only_list_dashboards_from (known : list (string * string))
    (acc : list (string * string * Z)) :
  raises_only (fun e => exists msg, e = OSError msg) (list_dashboards_from E known acc).
Proof.
  revert acc. induction known as [|[file_name description] known IH]; intros acc; simpl.
  - apply raises_only_ret.
  - apply raises_only_bind; [apply raises_only_os_path_exists | intros [|]; [| apply IH]].
    apply raises_only_bind; [apply raises_only_stat_size | intros size; apply IH].
Qed.

Lemma raises_only_probe (port : Z) :
  raises_only (fun e => (exists msg, e = OSError msg) \/ (exists msg, e = OverflowError msg))
              (probe E port).
Proof.
  unfold probe. apply raises_only_bind; [apply raises_only_emit | intros _].
  apply raises_only_with_exit.
  apply raises_only_bind; [| intros _; apply raises_only_ret].
  unfold sock_bind. apply raises_only_bind; [apply raises_only_emit | intros _].
  destruct (_ || _); [apply raises_only_raise; right; by eexists |].
  destruct (port_free E port); [apply raises_only_ret |].
  apply raises_only_raise; left; by eexists.
Qed.

Lemma raises_only_probe_ports (ports : list Z) :
  raises_only (fun e => (exists msg, e = RuntimeError msg) \/ (exists msg, e = OverflowError msg))
              (probe_ports E ports).
Proof.
  induction ports as [|port ports IH]; simpl.
  - apply raises_only_raise. left. by eexists.
  - eapply raises_only_try_except; [apply raises_only_probe |].
    intros e [[msg ->] | [msg ->]]; [exact IH | right; by eexists].
Qed.

Lemma raises_only_ensure_index_page :
  raises_only (fun e => exists msg, e = OSError msg) ensure_index_page.
Proof.
  intros w.
  destruct (ensure_index_page_cases w)
    as [[-> _] | [[-> _] | [[msg ->] _]]]; cbn; [done | done | by eexists].
Qed.

(** [startup] returns, ends with [sys.exit(1)], or lets an [OSError] or an
    [OverflowError] through; it never waits. *)
Lemma raises_only_startup (port : Z) : raises_only startup_exn (startup E port).
Proof.
  assert (Hos : forall e, (exists msg, e = OSError msg) -> startup_exn e)
    by (intros e He; right; by left).
  unfold startup.
  apply raises_only_bind; [apply raises_only_os_path_exists | intros root].
  apply raises_only_bind.
  { destruct (negb root); [| apply raises_only_ret].
    unfold print, sys_exit.
    repeat (apply raises_only_bind; [apply raises_only_emit | intros _]).
    apply raises_only_raise. by left. }
  intros _. apply raises_only_bind;
    [exact (raises_only_weaken _ _ _ Hos raises_only_ensure_index_page) | intros _].
  apply raises_only_bind;
    [exact (raises_only_weaken _ _ _ Hos raises_only_check_data_files) | intros data].
  apply raises_only_bind;
    [exact (raises_only_weaken _ _ _ Hos (raises_only_list_dashboards_from _ _))
    | intros dashboards].
  apply raises_only_bind; [| intros p; apply raises_only_ret].
  eapply raises_only_try_except; [apply raises_only_probe_ports |].
  intros e [[msg ->] | [msg ->]].
  - unfold print, sys_exit.
    apply raises_only_bind; [apply raises_only_emit | intros _].
    apply raises_only_raise. by left.
  - right; right. by eexists.
Qed.

(** The loop never returns: it leaves with [KeyboardInterrupt], which takes
    an interrupt among the arrivals, or it waits, which takes that there is
    none. *)
Lemma serve_forever_outcome (inbox : list incoming) :
  forall w,
    match fst (serve_forever E inbox w) with
    | Ret _ => False
    | Raise e => e = KeyboardInterrupt /\ InInterrupt ∈ inbox
    | Blocked => InInterrupt ∉ inbox
    end.
Proof.
  induction inbox as [|[rq |] inbox IH]; intros w; simpl.
  - set_solver.
  - destruct (do_GET_run E rq w) as [path' [evs [status [buf [body [_ [Hrun _]]]]]]].
    rewrite (bind_ret _ _ _ _ _ Hrun).
    specialize (IH (after w (evs ++ [EvResponse status
                                       (end_headers (request_version rq) path' buf)
                                       body]))).
    destruct (fst (serve_forever E inbox _)) as [a | e |]; [done | | ].
    + destruct IH as [-> Hin]. split; [done | by apply list_elem_of_further].
    + intros Hin. apply IH. by apply elem_of_cons in Hin as [Hin | Hin].
  - split; [done | by apply list_elem_of_here].
Qed.

End Outcomes.

(** X4.  How [start_server] can end, as far as its return and its own
    [sys.exit] calls go.  It returns only in a run in which an operator
    interrupt arrives; whenever it ends with [sys.exit] the code is 1, never
    0; and a run in which it is still serving has had no interrupt arrive at
    the loop.  The exceptions it lets through are not classified here. *)
Theorem start_server_endings (E : env) (inbox : list incoming) (port : Z)
    (auto_open : bool) (w : world) :
  match fst (start_server E inbox port auto_open w) with
  | Ret _ => InInterrupt ∈ inbox
  | Raise (SystemExit code) => code = 1
  | Raise _ => True
  | Blocked => InInterrupt ∉ inbox
  end.
Proof.
  unfold start_server. unfold bind at 1.
  pose proof (raises_only_startup E port w) as Hstart.
  destruct (startup E port w) as [[[[data dashboards] p] | e |] w1]; cbn [fst] in Hstart.
  - unfold try_except, tcp_server.
    destruct (listen_ok E p); [| done].
    unfold bind at 1. unfold emit at 1. unfold with_exit.
    destruct (serve_block_leads E data dashboards p auto_open
                {| fs := fs w1; trace := trace w1 ++ [EvListen p] |})
      as [banner [_ Hblock]].
    rewrite Hblock.
    pose proof (serve_forever_outcome E inbox
                  (after {| fs := fs w1; trace := trace w1 ++ [EvListen p] |} banner))
      as Hloop.
    destruct (serve_forever E inbox _) as [[a | e |] w2]; cbn [fst] in Hloop.
    + done.
    + destruct Hloop as [-> Hin]. exact Hin.
    + exact Hloop.
  - cbn [fst]. destruct Hstart as [-> | [[msg ->] | [msg ->]]]; done.
  - done.
Qed.

(** ** The port probe at the edge of the port numbers *)

Lemma probe_run_invalid (E : env) (port : Z) (w : world) :
  port < 0 \/ 65535 < port ->
  probe E port w =
  (Raise (OverflowError "bind(): port must be 0-65535."), after w (probe_events port)).
Proof.
  intros Hport. unfold probe, with_exit, sock_bind, emit. unfold bind at 1. unfold bind.
  replace ((port <? 0) || (65535 <? port)) with true
    by (symmetry; apply orb_true_iff; destruct Hport;
        [left; by apply Z.ltb_lt | right; by apply Z.ltb_lt]).
  unfold raise, after, probe_events; simpl. by rewrite <- !app_assoc.
Qed.

Lemma probe_ports_outcome (E : env) (n : nat) :
  forall (start : Z) (w : world),
    match probe_ports E (seqZ start (Z.of_nat n)) w with
    | (Ret p, w') =>
        start <= p < start + Z.of_nat n /\
        0 <= p <= 65535 /\ port_free E p = true /\
        (forall q, start <= q < p -> 0 <= q <= 65535 /\ port_free E q = false) /\
        w' = after w (concat (map probe_events (seqZ start (p + 1 - start))))
    | (Raise (RuntimeError msg), w') =>
        msg = "No available ports found" /\
        (forall q, start <= q < start + Z.of_nat n ->
                   0 <= q <= 65535 /\ port_free E q = false) /\
        w' = after w (concat (map probe_events (seqZ start (Z.of_nat n))))
    | (Raise (OverflowError msg), w') =>
        exists q,
          start <= q < start + Z.of_nat n /\ (q < 0 \/ 65535 < q) /\
          (forall q', start <= q' < q -> 0 <= q' <= 65535 /\ port_free E q' = false) /\
          w' = after w (concat (map probe_events (seqZ start (q + 1 - start))))
    | _ => False
    end.
Proof.
  induction n as [|n IH]; intros start w.
  - simpl. rewrite after_nil. split; [done |]. split; [intros q Hq; lia | done].
  - rewrite seqZ_cons by lia.
    replace (Z.pred (Z.of_nat (S n))) with (Z.of_nat n) by lia.
    cbn [probe_ports]. unfold try_except.
    assert (Hone : seqZ start (start + 1 - start) = [start])
      by (by replace (start + 1 - start) with 1 by lia).
    destruct (decide (0 <= start <= 65535)) as [Hvalid | Hinvalid].
    + rewrite probe_run by lia.
      destruct (port_free E start) eqn:Hfree.
      * split; [lia |]. split; [lia |]. split; [done |].
        split; [intros q Hq; lia |]. by rewrite Hone.
      * specialize (IH (Z.succ start) (after w (probe_events start))).
        assert (Hcons : forall q, start <= q ->
                  seqZ start (q + 1 - start)
                  = start :: seqZ (Z.succ start) (q + 1 - Z.succ start)).
        { intros q Hq. rewrite (seqZ_cons start) by lia.
          by replace (Z.pred (q + 1 - start)) with (q + 1 - Z.succ start) by lia. }
        assert (Hbefore : forall q (P : Z -> Prop),
                  (forall q', Z.succ start <= q' < q -> P q') -> P start ->
                  forall q', start <= q' < q -> P q').
        { intros q P Hlater Hstart q' Hq'.
          destruct (decide (q' = start)) as [-> | Hne]; [done | apply Hlater; lia]. }
        destruct (probe_ports E (seqZ (Z.succ start) (Z.of_nat n))
                    (after w (probe_events start))) as [[p | [code | msg | msg | msg |] |] w'];
          try done.
        -- destruct IH as [Hp [Hpv [Hpfree [Hbusy ->]]]].
           split; [lia |]. split; [done |]. split; [done |]. split.
           ++ by apply (Hbefore p (fun q => 0 <= q <= 65535 /\ port_free E q = false)).
           ++ rewrite after_after, (Hcons p) by lia. done.
        -- destruct IH as [-> [Hbusy ->]]. split; [done |]. split.
           ++ intros q Hq.
              apply (Hbefore (Z.succ start + Z.of_nat n)
                       (fun q => 0 <= q <= 65535 /\ port_free E q = false));
                [done | done | lia].
           ++ by rewrite after_after.
        -- destruct IH as [q [Hq [Hqv [Hbusy ->]]]]. exists q.
           split; [lia |]. split; [done |]. split.
           ++ by apply (Hbefore q (fun q => 0 <= q <= 65535 /\ port_free E q = false)).
           ++ rewrite after_after, (Hcons q) by lia. done.
    + rewrite probe_run_invalid by lia. exists start.
      split; [lia |]. split; [lia |]. split; [intros q' Hq'; lia |]. by rewrite Hone.
Qed.

(** X1.  [find_available_port] for any start value.  A port it returns is a
    valid port number of [[start, start+100)] whose bind succeeds, every
    earlier port of the range being a valid number whose bind fails.  It
    raises [RuntimeError] only when all hundred ports are valid numbers and
    taken.  When the probing reaches a number outside 0..65535 before a free
    port, the [OverflowError] of that bind ends the function there, the
    earlier ports being valid and taken; for a start value below 0 or above
    65535 that is the first probe.  In each case the probes made are those
    of the ports up to the last one tried, in ascending order, each closed;
    nothing else is raised and the function never waits. *)
Theorem find_available_port_outcome (E : env) (start : Z) (w : world) :
  match find_available_port E start w with
  | (Ret p, w') =>
      start <= p < start + 100 /\
      0 <= p <= 65535 /\ port_free E p = true /\
      (forall q, start <= q < p -> 0 <= q <= 65535 /\ port_free E q = false) /\
      w' = after w (concat (map probe_events (py_range start (p + 1))))
  | (Raise (RuntimeError msg), w') =>
      msg = "No available ports found" /\
      0 <= start /\ start + 100 <= 65536 /\
      (forall q, start <= q < start + 100 -> port_free E q = false) /\
      w' = after w (concat (map probe_events (py_range start (start + 100))))
  | (Raise (OverflowError msg), w') =>
      exists q,
        start <= q < start + 100 /\ (q < 0 \/ 65535 < q) /\
        (start < 0 \/ 65535 < start -> q = start) /\
        (forall q', start <= q' < q -> 0 <= q' <= 65535 /\ port_free E q' = false) /\
        w' = after w (concat (map probe_events (py_range start (q + 1))))
  | _ => False
  end.
Proof.
  unfold find_available_port, py_range.
  replace (start + 100 - start) with (Z.of_nat 100) by lia.
  pose proof (probe_ports_outcome E 100 start w) as Hrun.
  destruct (probe_ports E (seqZ start (Z.of_nat 100)) w)
    as [[p | [code | msg | msg | msg |] |] w']; try done.
  - destruct Hrun as [-> [Hbusy ->]].
    pose proof (Hbusy start ltac:(lia)) as [Hlo _].
    pose proof (Hbusy (start + 99) ltac:(lia)) as [Hhi _].
    split; [done |]. split; [lia |]. split; [lia |]. split; [| done].
    intros q Hq. apply Hbusy. lia.
  - destruct Hrun as [q [Hq [Hqv [Hbusy ->]]]]. exists q.
    split; [lia |]. split; [done |]. split; [| split; [done | done]].
    intros Hstart. destruct (decide (q = start)) as [-> | Hne]; [done |].
    pose proof (Hbusy start ltac:(lia)). lia.
Qed.

(** ** The data probe *)

Lemma check_data_files_absent (E : env) (w : world) :
  fs w !! "web_dashboard/data.json" = None ->
  check_data_files E w =
  (Ret (DataStatus false 0 None),
   after w
     ([ EvExists "web_dashboard/data.json"; EvExists "web_dashboard/data.json" ] ++
      map EvPrint
        [ "⚠️  Warning: data.json not found in web_dashboard/";
          "   Run a Rust example to generate data:";
          "   🔒 cargo run --example unsafe_ffi_demo";
          "   📊 cargo run --example memory_stress_test";
          "   ⏱️  cargo run --example lifecycles_simple";
          EmptyString ])).
Proof.
  intros Hdata. unfold check_data_files.
  rewrite (bind_ret _ _ _ _ _ (os_path_exists_run _ w)).
  rewrite (bind_ret _ _ _ _ _ (os_path_exists_run _ _)).
  cbn [fs after].
  rewrite !bool_decide_eq_false_2 by (rewrite Hdata; by intros [n Hn]).
  unfold print, emit, bind, ret, after; cbn [fs trace map app].
  by rewrite <- !app_assoc.
Qed.

Lemma check_data_files_present (E : env) (w : world) (n : node) :
  fs w !! "web_dashboard/data.json" = Some n ->
  check_data_files E w =
  (Ret (DataStatus true
          (match n with
           | File content => Z.of_nat (String.length content)
           | Dir => dir_size E
           end)
          (Some (stat_mtime E "web_dashboard/data.json"))),
   after w [ EvExists "web_dashboard/data.json"; EvExists "web_dashboard/data.json";
             EvStat "web_dashboard/data.json"; EvStat "web_dashboard/data.json" ]).
Proof.
  intros Hdata. unfold check_data_files.
  rewrite (bind_ret _ _ _ _ _ (os_path_exists_run _ w)).
  rewrite (bind_ret _ _ _ _ _ (os_path_exists_run _ _)).
  cbn [fs after].
  rewrite !bool_decide_eq_true_2 by (rewrite Hdata; by exists n).
  unfold stat_size, stat_mtime_of, emit, get_fs, after. unfold bind; cbn [fs trace].
  rewrite Hdata. destruct n; unfold ret; cbn [fs trace]; rewrite Hdata;
    by rewrite <- !app_assoc.
Qed.

Lemma check_data_files_returns (E : env) (w : world) :
  exists status evs, check_data_files E w = (Ret status, after w evs).
Proof.
  destruct (fs w !! "web_dashboard/data.json") as [n |] eqn:Hdata.
  - eexists _, _. exact (check_data_files_present E w n Hdata).
  - eexists _, _. exact (check_data_files_absent E w Hdata).
Qed.


(** ** The dashboard list *)



(** ** Requests *)

(** X7.  The rewriting of [do_GET] never raises, changes no file, and is
    idempotent: the path it yields is not an alias, so rewriting it again
    yields it unchanged and looks at no file. *)
Theorem route_idempotent (path : string) (w : world) :
  exists path' w',
    route path w = (Ret path', w') /\
    fs w' = fs w /\
    route path' w' = (Ret path', w').
Proof.
  unfold route at 1.
  destruct (bool_decide (path = "/")) eqn:Hroot;
    [eexists _, w; by repeat split |].
  destruct (bool_decide (path = "/unsafe") || bool_decide (path = "/unsafe/")) eqn:Hunsafe;
    [eexists _, w; by repeat split |].
  destruct (bool_decide (path = "/memory") || bool_decide (path = "/memory/")) eqn:Hmemory;
    [eexists _, w; by repeat split |].
  destruct (bool_decide (path = "/classic") || bool_decide (path = "/classic/")) eqn:Hclassic;
    [eexists _, w; by repeat split |].
  destruct (bool_decide (path = "/lifecycle") || bool_decide (path = "/lifecycle/"))
    eqn:Hlifecycle.
  - rewrite (bind_ret _ _ _ _ _ (os_path_exists_run _ w)).
    destruct (negb _); eexists _, _; by repeat split.
  - exists path, w. split; [done |]. split; [done |].
    unfold route. by rewrite Hroot, Hunsafe, Hmemory, Hclassic, Hlifecycle.
Qed.


(** ** The other endings of [start_server] *)



(** X3.  When the port the probe returned can no longer be bound as the
    server is created, [start_server] prints the error of the failed bind
    as a server error and ends with [sys.exit(1)]: no request is served and
    there is no second try. *)
Theorem bind_race_exits (E : env) (inbox : list incoming) (port : Z) (no_browser : bool)
    (w : world) (data : data_status) (dashboards : list (string * string * Z)) (p : Z) :
  fst (startup E port w) = Ret (data, dashboards, p) ->
  listen_ok E p = false ->
  main E inbox port no_browser w =
    (Raise (SystemExit 1),
     after (snd (startup E port w))
           [EvPrint ("❌ Server error: " +:+ listen_error E p)]) /\
  exit_code (fst (main E inbox port no_browser w)) = Some 1.
Proof.
  intros Hstart Hlisten.
  destruct (startup E port w) as [o w1] eqn:Hrun. simpl in Hstart. subst o.
  assert (Hmain : main E inbox port no_browser w =
            (Raise (SystemExit 1),
             after w1 [EvPrint ("❌ Server error: " +:+ listen_error E p)])).
  { unfold main, start_server.
    rewrite (bind_ret _ _ _ _ _ Hrun). unfold try_except, tcp_server.
    by rewrite Hlisten. }
  by rewrite Hmain.
Qed.

Lemma bind_race_exits_witness :
  fst (startup race_env 8080 bare_world) =
    Ret (DataStatus false 0 None,
         [("dashboard_index.html", "🏠 Main Dashboard Index", 10808)], 8080) /\
  listen_ok race_env 8080 = false /\
  exit_code (fst (main race_env [InGET "/"] 8080 false bare_world)) = Some 1.
Proof.
  assert (Hstart : fst (startup race_env 8080 bare_world) =
            Ret (DataStatus false 0 None,
                 [("dashboard_index.html", "🏠 Main Dashboard Index", 10808)], 8080))
    by (vm_compute; reflexivity).
  split; [exact Hstart |]. split; [reflexivity |].
  exact (proj2 (bind_race_exits race_env [InGET "/"] 8080 false bare_world _ _ _
                  Hstart eq_refl)).
Defined.

(** ** What start-up leaves behind *)

Lemma bind_inv_ret {A B : Type} (m : M A) (k : A -> M B) (w w' : world) (b : B) :
  bind m k w = (Ret b, w') ->
  exists a w1, m w = (Ret a, w1) /\ k a w1 = (Ret b, w').
Proof.
  unfold bind. destruct (m w) as [[a | e |] w1]; intros H;
    [by exists a, w1 | discriminate | discriminate].
Qed.

(** The steps of [startup] after the landing page change no file. *)
Lemma startup_tail_keeps_fs (E : env) (port : Z) :
  respects (fun w w' => fs w' = fs w)
    (let* data := check_data_files E in
     let* dashboards := list_available_dashboards E in
     let* port :=
       try_except (find_available_port E port)
         (fun e => match e with
                   | RuntimeError msg => Some (print ("❌ Error: " +:+ msg) >> sys_exit 1)
                   | _ => None
                   end) in
     ret (data, dashboards, port)).
Proof.
  set (R := fun w w' : world => fs w' = fs w).
  assert (R_refl : forall w, R w w) by done.
  assert (R_trans : forall w1 w2 w3, R w1 w2 -> R w2 w3 -> R w1 w3)
    by (unfold R; intros w1 w2 w3 H12 H23; by rewrite H23).
  assert (R_emit : forall e w, True -> R w (after w [e])) by done.
  apply (respects_bind R R_trans);
    [apply (respects_check_data_files E R (fun _ => True) R_refl R_trans R_emit);
     by intros | intros data].
  apply (respects_bind R R_trans);
    [apply (respects_list_dashboards_from E R (fun _ => True) R_refl R_trans R_emit);
     by intros | intros dashboards].
  apply (respects_bind R R_trans); [| intros p; apply (respects_ret R R_refl)].
  apply (respects_try_except R R_trans);
    [apply (respects_probe_ports E R (fun _ => True) R_refl R_trans R_emit); by intros |].
  intros [code | msg | msg | msg |] k Hk; simplify_eq.
  apply (respects_bind R R_trans);
    [by apply (respects_print R (fun _ => True) R_emit)
    | intros _; apply (respects_raise R R_refl)].
Qed.

(** X9.  When [startup] returns, the landing page exists under an existing
    [web_dashboard], so the alias [/] has its file: it is the page that was
    there, untouched, or, if none was, the generated one; every other path
    holds what it held. *)
Theorem startup_leaves_landing_page (E : env) (port : Z) (w : world)
    (s : data_status * list (string * string * Z) * Z) :
  fst (startup E port w) = Ret s ->
  is_Some (fs (snd (startup E port w)) !! "web_dashboard") /\
  is_Some (fs (snd (startup E port w)) !! "web_dashboard/dashboard_index.html") /\
  (is_Some (fs w !! "web_dashboard/dashboard_index.html") ->
     fs (snd (startup E port w)) = fs w) /\
  (fs w !! "web_dashboard/dashboard_index.html" = None ->
     fs (snd (startup E port w)) =
       <["web_dashboard/dashboard_index.html" := File index_content]> (fs w)).
Proof.
  intros Hret. destruct (startup E port w) as [o w'] eqn:Hrun.
  cbn [fst snd] in *. subst o. unfold startup in Hrun.
  apply bind_inv_ret in Hrun as (root & w0 & Hexists & Hrun).
  rewrite os_path_exists_run in Hexists. injection Hexists as <- <-.
  apply bind_inv_ret in Hrun as ([] & w0' & Hroot & Hrun).
  case_bool_decide as Hdir; [| discriminate Hroot].
  injection Hroot as <-.
  apply bind_inv_ret in Hrun as ([] & w1 & Hensure & Hrun).
  pose proof (startup_tail_keeps_fs E port w1) as Htail.
  rewrite Hrun in Htail. cbn [snd] in Htail. rewrite Htail.
  destruct (ensure_index_page_cases (after w [EvExists "web_dashboard"]))
    as [[Hsame Hpage] | [[Hnew Hpage] | [[msg Hfail] _]]]; cbn [fs after] in *.
  - rewrite Hsame in Hensure. injection Hensure as <-. cbn [fs after].
    split; [done |]. split; [done |]. split; [done |].
    intros Hnone. rewrite Hnone in Hpage. by destruct Hpage.
  - rewrite Hnew in Hensure. injection Hensure as <-. cbn [fs].
    split; [by rewrite lookup_insert_ne |].
    split; [by rewrite lookup_insert_eq |].
    split; [| done]. rewrite Hpage. by intros [n Hn].
  - rewrite Hfail in Hensure. discriminate Hensure.
Qed.

Lemma startup_leaves_landing_page_witness :
  fst (startup demo_env 8080 bare_world) =
    Ret (DataStatus false 0 None,
         [("dashboard_index.html", "🏠 Main Dashboard Index", 10808)], 8082) /\
  is_Some (fs (snd (startup demo_env 8080 bare_world)) !! "web_dashboard/dashboard_index.html").
Proof.
  assert (Hstart : fst (startup demo_env 8080 bare_world) =
            Ret (DataStatus false 0 None,
                 [("dashboard_index.html", "🏠 Main Dashboard Index", 10808)], 8082))
    by (vm_compute; reflexivity).
  split; [exact Hstart |].
  exact (proj1 (proj2 (startup_leaves_landing_page demo_env 8080 bare_world _ Hstart))).
Defined.

(** X2.  When [web_dashboard] is there, the landing page exists or can be
    written, and every one of the hundred valid ports from the start port is
    taken, [main] prints [❌ Error: No available ports found] as its last
    line and ends with [sys.exit(1)]: the status is 1, and no server was
    created, no thread started and no request answered: up to that line the
    run has only printed, looked at files, probed ports and, at most,
    written the landing page. *)
Theorem port_exhaustion_exits (E : env) (inbox : list incoming) (port : Z)
    (no_browser : bool) (w : world) :
  is_Some (fs w !! "web_dashboard") ->
  is_Some (fs w !! "web_dashboard/dashboard_index.html") \/
    fs w !! "web_dashboard" = Some Dir ->
  0 <= port -> port + 100 <= 65536 ->
  (forall q, port <= q < port + 100 -> port_free E q = false) ->
  fst (main E inbox port no_browser w) = Raise (SystemExit 1) /\
  exit_code (fst (main E inbox port no_browser w)) = Some 1 /\
  last (trace (snd (main E inbox port no_browser w)))
    = Some (EvPrint "❌ Error: No available ports found") /\
  exists evs,
    trace (snd (main E inbox port no_browser w)) = trace w ++ evs /\
    Forall (fun e => startup_event e \/ e = EvWrite "web_dashboard/dashboard_index.html")
           evs.
Proof.
  intros Hroot Hpage Hlo Hhi Hbusy.
  assert (Hstartup : exists w4,
            startup E port w =
            (Raise (SystemExit 1),
             after w4 [EvPrint ("❌ Error: " +:+ "No available ports found")])).
  { unfold startup.
    rewrite (bind_ret _ _ _ _ _ (os_path_exists_run _ w)).
    rewrite bool_decide_eq_true_2 by done. cbn [negb].
    unfold bind at 1. unfold ret at 1.
    assert (Hensure : exists w1,
              ensure_index_page (after w [EvExists "web_dashboard"]) = (Ret tt, w1)).
    { destruct (ensure_index_page_cases (after w [EvExists "web_dashboard"]))
        as [[H _] | [[H _] | [[msg H] Hnone]]]; [by eexists | by eexists |].
      cbn [fs after] in Hnone. exfalso.
      destruct Hpage as [[n Hn] | Hdir]; [congruence |].
      pose proof (ensure_index_page_created (after w [EvExists "web_dashboard"])
                    Hnone Hdir) as Hmade.
      rewrite H in Hmade. discriminate Hmade. }
    destruct Hensure as [w1 Hensure]. rewrite (bind_ret _ _ _ _ _ Hensure).
    destruct (check_data_files_returns E w1) as [status [evs2 Hcheck]].
    rewrite (bind_ret _ _ _ _ _ Hcheck).
    destruct (list_dashboards_from_run E known_dashboards [] (after w1 evs2))
      as [found [evs3 [Hlist _]]].
    unfold list_available_dashboards. rewrite (bind_ret _ _ _ _ _ Hlist).
    set (w3 := after (after w1 evs2) evs3).
    pose proof (probe_ports_run E 100 port w3 Hlo ltac:(lia)) as Hprobe.
    unfold find_available_port, py_range.
    replace (port + 100 - port) with (Z.of_nat 100) by lia.
    unfold bind at 1. unfold try_except.
    destruct (probe_ports E (seqZ port (Z.of_nat 100)) w3) as [[p | e |] w4].
    - destruct Hprobe as [Hp [Hfree _]]. rewrite (Hbusy p ltac:(lia)) in Hfree.
      discriminate Hfree.
    - destruct Hprobe as [-> _]. by exists w4.
    - done. }
  destruct Hstartup as [w4 Hstartup].
  assert (Hmain : main E inbox port no_browser w =
            (Raise (SystemExit 1),
             after w4 [EvPrint ("❌ Error: " +:+ "No available ports found")])).
  { unfold main, start_server. by apply bind_raise. }
  pose proof (respects_startup E
                (adds_only (fun e => startup_event e \/
                                     e = EvWrite "web_dashboard/dashboard_index.html"))
                (fun e => startup_event e \/
                          e = EvWrite "web_dashboard/dashboard_index.html")
                (adds_only_refl _) (adds_only_trans _) (adds_only_emit _)
                (fun e He => or_introl He)
                (adds_only_ensure _ (fun e He => or_introl He) (or_intror eq_refl))
                port w) as Hadds.
  rewrite Hstartup in Hadds. rewrite Hmain. cbn [fst snd] in *.
  split; [done |]. split; [done |]. split; [| exact Hadds].
  cbn [trace after]. by rewrite last_snoc.
Qed.

Lemma port_exhaustion_exits_witness :
  is_Some (fs bare_world !! "web_dashboard") /\
  exit_code (fst (main busy_env [InGET "/"] 8080 false bare_world)) = Some 1.
Proof.
  assert (Hroot : is_Some (fs bare_world !! "web_dashboard")) by (by exists Dir).
  split; [exact Hroot |].
  refine (proj1 (proj2 (port_exhaustion_exits busy_env [InGET "/"] 8080 false bare_world
                          Hroot (or_intror eq_refl) _ _ (fun _ _ => eq_refl)))); lia.
Defined.

(** ** The browser thread *)

Section Banner.

Variable E : env.








End Banner.


